(** * CodeOrigin: the analysis session controller of the [App] component

    A shallow embedding of the stateful part of the React component [App]
    (third document of [src/components/CodeInputPanel.tsx]): the code
    buffer, the view state, the request issued by [handleAnalyze], the
    normalisation of the backend's answer, the bounded history kept by
    [addToHistory], and [handleReset].

    React state is a record, every handler is a function on it, and the
    asynchronous part of [handleAnalyze] (everything after [await fetch])
    is a continuation stored with the request it waits for: the closure
    keeps the [code] and [language] of the render that started it. *)

From Stdlib Require Import ZArith QArith Qround String Ascii DecimalString Lia Lqa.
From stdpp Require Import base numbers list.

Set Default Proof Using "Type".
Set Warnings "-register-all".
Local Open Scope Z_scope.

(** ** JavaScript strings *)

(** A JavaScript string is a sequence of UTF-16 code units. *)
Definition jsstring := list N.

(** A literal of the source text (all of them ASCII). *)
Definition str (s : string) : jsstring := N_of_ascii <$> list_ascii_of_string s.

(** [WhiteSpace] and [LineTerminator] of ECMAScript: what [String.prototype.trim]
    strips and what the regular expression class [\s] matches. *)
Definition isWhiteSpace (c : N) : bool :=
  ((9 <=? c) && (c <=? 13) || (c =? 32) || (c =? 160) || (c =? 5760)
   || (8192 <=? c) && (c <=? 8202) || (c =? 8232) || (c =? 8233)
   || (c =? 8239) || (c =? 8287) || (c =? 12288) || (c =? 65279))%N.

Fixpoint trimStart (s : jsstring) : jsstring :=
  match s with
  | c :: s' => if isWhiteSpace c then trimStart s' else s
  | [] => []
  end.

Definition trimEnd (s : jsstring) : jsstring := reverse (trimStart (reverse s)).

(** [s.trim()] *)
Definition trim (s : jsstring) : jsstring := trimEnd (trimStart s).

(** [s.replace(/\s+/g, ' ')]: every maximal run of white space becomes one
    space. [inRun] tells that the previous code unit was white space. *)
Fixpoint collapseFrom (inRun : bool) (s : jsstring) : jsstring :=
  match s with
  | [] => []
  | c :: s' =>
      if isWhiteSpace c
      then (if inRun then collapseFrom true s' else 32%N :: collapseFrom true s')
      else c :: collapseFrom false s'
  end.

Definition collapseWhiteSpace (s : jsstring) : jsstring := collapseFrom false s.

(** A string is falsy exactly when it is empty: [!s]. *)
Definition isEmpty (s : jsstring) : bool :=
  match s with [] => true | _ => false end.

(** Decimal digits of a non-negative integer, as a template literal prints it. *)
Definition decimal (n : N) : jsstring := str (NilEmpty.string_of_uint (N.to_uint n)).

(** ** JavaScript numbers *)

(** A Number is a double: finite (each one is a rational, kept here by its
    exact value), an infinity, or NaN. *)
Inductive number :=
  | Finite (q : Q)
  | PosInfinity
  | NegInfinity
  | NaN.

Definition num (z : Z) : number := Finite (inject_Z z).

(** [a <= b] on numbers other than NaN. *)
Definition number_leb (a b : number) : bool :=
  match a, b with
  | NegInfinity, _ => true
  | _, PosInfinity => true
  | Finite p, Finite q => Qle_bool p q
  | _, _ => false
  end.

(** [Math.round]: the closest integer, a tie going up. *)
Definition Math_round (x : number) : number :=
  match x with
  | Finite q => Finite (inject_Z (Qfloor (q + (1 # 2))))
  | _ => x
  end.

Definition Math_min (a b : number) : number :=
  match a, b with
  | NaN, _ | _, NaN => NaN
  | _, _ => if number_leb a b then a else b
  end.

Definition Math_max (a b : number) : number :=
  match a, b with
  | NaN, _ | _, NaN => NaN
  | _, _ => if number_leb a b then b else a
  end.

(** ** Parsed JSON *)

(** The Numbers [JSON.parse] can produce: a literal denotes a finite double,
    or overflows to an infinity (1e999); no literal denotes NaN. *)
Inductive parsed_number :=
  | Double (q : Q)
  | Overflow (negative : bool).

Definition number_of (p : parsed_number) : number :=
  match p with
  | Double q => Finite q
  | Overflow true => NegInfinity
  | Overflow false => PosInfinity
  end.

(** The value [res.json()] resolves to. An object is its list of own
    properties, each key once. *)
Inductive json :=
  | JNull
  | JBool (b : bool)
  | JNumber (n : parsed_number)
  | JString (s : jsstring)
  | JArray (elements : list json)
  | JObject (properties : list (jsstring * json)).

(** What is thrown, or what a promise rejects with: an instance of [Error]
    with its [message], or any other value. *)
Inductive thrown :=
  | ErrorObject (message : jsstring)
  | NotAnError.

(** The outcome of an expression that may throw. *)
Inductive completion (A : Type) :=
  | Normal (a : A)
  | Throw (e : thrown).
Arguments Normal {A} a.
Arguments Throw {A} e.

(** Sequencing: a throw skips what follows. *)
#[global] Instance completion_bind : MBind completion := λ A B k c,
  match c with
  | Normal a => k a
  | Throw e => Throw e
  end.

#[global] Instance completion_fmap : FMap completion := λ A B f c,
  match c with
  | Normal a => Normal (f a)
  | Throw e => Throw e
  end.

(** What the language runtime decides and the component does not: the
    wording of the TypeError for a property read on [null], and the string
    that [new Error(v)] ends up carrying for a truthy [v] that is not a
    string (Number::toString, [true], the join of an array, [[object Object]],
    or the message of the TypeError raised when the conversion fails inside
    the [try]). *)
Class Runtime := {
  nullReadMessage : jsstring -> jsstring;
  coercedMessage : json -> jsstring
}.

Fixpoint assoc (k : jsstring) (properties : list (jsstring * json)) : option json :=
  match properties with
  | [] => None
  | (k', v) :: rest => if decide (k' = k) then Some v else assoc k rest
  end.

(** The own property [k] of a parsed value: only an object has the keys read
    here ([type], [confidence], [reasons], [model], [error]), which no
    prototype defines. [None] is [undefined]. *)
Definition field (k : jsstring) (v : json) : option json :=
  match v with
  | JObject properties => assoc k properties
  | _ => None
  end.

(** [v.k]: reading a property of [null] throws a TypeError. *)
Definition Get `{Runtime} (v : json) (k : jsstring) : completion (option json) :=
  match v with
  | JNull => Throw (ErrorObject (nullReadMessage k))
  | _ => Normal (field k v)
  end.

(** Truthiness of [v] in [v || ...]. *)
Definition truthy (v : option json) : bool :=
  match v with
  | None | Some JNull | Some (JBool false) => false
  | Some (JNumber (Double q)) => negb (Qeq_bool q 0)
  | Some (JString s) => negb (isEmpty s)
  | Some _ => true
  end.

(** ** The component's data *)

(** [type ResultType = 'ai' | 'human'] *)
Inductive ResultType := ai | human.

(** [interface ResultData]. The declared types of [reasons] and [model] are
    not checked at run time: what the backend sent is kept as it came. *)
Record ResultData := {
  type : ResultType;
  confidence : number;
  reasons : list json;
  model : json
}.

(** [type ViewState = 'empty' | 'loading' | 'result' | 'error'] *)
Module ViewState.
Inductive t := empty | loading | result | error.
#[global] Instance eq_dec : EqDecision t.
Proof. solve_decision. Defined.
End ViewState.

(** [status: 'success' | 'error'] of a history item. *)
Module Status.
Inductive t := success | error.
End Status.

(** The argument of [addToHistory]:
    [Omit<HistoryItem, 'id' | 'timestamp' | 'codePreview'>]. *)
Record Outcome := {
  outcomeLanguage : jsstring;
  outcomeStatus : Status.t;
  outcomeResult : option ResultData;
  outcomeErrorMessage : option jsstring
}.

(** [interface HistoryItem]; the last four fields are the spread [...item]. *)
Record HistoryItem := {
  id : Z;
  timestamp : jsstring;
  codePreview : jsstring;
  outcome : Outcome
}.

(** ** Constants *)

Definition MIN_CODE_LENGTH : nat := 20.

(** The marker appended to a long preview, as the source file has it: the
    three code units U+00E2, U+20AC, U+00A6. *)
Definition previewMarker : jsstring := [226; 8364; 166]%N.

Definition SAMPLE_JS_CODE : jsstring := str
"function sum(a, b) {
        return a + b;
      }

      const numbers = [1, 2, 3, 4];
      const total = numbers.reduce((acc, n) => acc + n, 0);

      console.log(total);".

Definition SAMPLE_PY_CODE : jsstring := str
"def sum_numbers(numbers):
          total = 0
          for n in numbers:
              total += n
          return total

      nums = [1, 2, 3, 4]
      print(sum_numbers(nums))".

Definition unreachableMessage : jsstring :=
  str "Unable to reach the server. Please try again.".

(** The template literal [`Server error (status ${res.status})`]. *)
Definition statusMessage (status : N) : jsstring :=
  str "Server error (status " ++ decimal status ++ str ")".

Definition noReasons : jsstring := str "No reasons provided by backend.".

(** ** Normalisation of a successful answer *)

Section WithRuntime.
Context `{rt : Runtime}.

(** The object literal [normalized] of [handleAnalyze]. Reading [dataRaw.type]
    throws when the body is [null]; the later reads cannot throw any more. *)
Definition normalize (dataRaw : json) : completion ResultData :=
  rawType ← Get dataRaw (str "type");
  rawConfidence ← Get dataRaw (str "confidence");
  rawReasons ← Get dataRaw (str "reasons");
  rawModel ← Get dataRaw (str "model");
  Normal {|
    type :=
      match rawType with
      | Some (JString s) => if decide (s = str "ai") then ai else human
      | _ => human
      end;
    confidence :=
      match rawConfidence with
      | Some (JNumber n) =>
          Math_max (num 0) (Math_min (num 100) (Math_round (number_of n)))
      | _ => num 55
      end;
    reasons :=
      match rawReasons with
      | Some (JArray elements) => elements
      | _ => [JString noReasons]
      end;
    model :=
      match rawModel with
      | None | Some JNull => JString (str "Heuristic")
      | Some v => v
      end
  |}.

End WithRuntime.

(** ** React state *)

(** The [useState] cells of [App] that the controller reads or writes
    ([openSection] and [showPasteHint] belong to the info dialog and the
    paste hint only). *)
Record AppState := {
  code : jsstring;
  language : jsstring;
  state : ViewState.t;
  result : option ResultData;
  errorMessage : option jsstring;
  history : list HistoryItem;
  lastAnalyzedAt : option jsstring;
  animatedConfidence : number;
  analysisDuration : option number
}.

Definition setCode (v : jsstring) (s : AppState) : AppState :=
  {| code := v; language := language s; state := state s; result := result s;
     errorMessage := errorMessage s; history := history s;
     lastAnalyzedAt := lastAnalyzedAt s; animatedConfidence := animatedConfidence s;
     analysisDuration := analysisDuration s |}.

Definition setLanguage (v : jsstring) (s : AppState) : AppState :=
  {| code := code s; language := v; state := state s; result := result s;
     errorMessage := errorMessage s; history := history s;
     lastAnalyzedAt := lastAnalyzedAt s; animatedConfidence := animatedConfidence s;
     analysisDuration := analysisDuration s |}.

Definition setState (v : ViewState.t) (s : AppState) : AppState :=
  {| code := code s; language := language s; state := v; result := result s;
     errorMessage := errorMessage s; history := history s;
     lastAnalyzedAt := lastAnalyzedAt s; animatedConfidence := animatedConfidence s;
     analysisDuration := analysisDuration s |}.

Definition setResult (v : option ResultData) (s : AppState) : AppState :=
  {| code := code s; language := language s; state := state s; result := v;
     errorMessage := errorMessage s; history := history s;
     lastAnalyzedAt := lastAnalyzedAt s; animatedConfidence := animatedConfidence s;
     analysisDuration := analysisDuration s |}.

Definition setErrorMessage (v : option jsstring) (s : AppState) : AppState :=
  {| code := code s; language := language s; state := state s; result := result s;
     errorMessage := v; history := history s;
     lastAnalyzedAt := lastAnalyzedAt s; animatedConfidence := animatedConfidence s;
     analysisDuration := analysisDuration s |}.

(** [setHistory((prev) => ...)]: the update reads the latest history. *)
Definition setHistory (f : list HistoryItem -> list HistoryItem) (s : AppState) : AppState :=
  {| code := code s; language := language s; state := state s; result := result s;
     errorMessage := errorMessage s; history := f (history s);
     lastAnalyzedAt := lastAnalyzedAt s; animatedConfidence := animatedConfidence s;
     analysisDuration := analysisDuration s |}.

Definition setLastAnalyzedAt (v : option jsstring) (s : AppState) : AppState :=
  {| code := code s; language := language s; state := state s; result := result s;
     errorMessage := errorMessage s; history := history s;
     lastAnalyzedAt := v; animatedConfidence := animatedConfidence s;
     analysisDuration := analysisDuration s |}.

Definition setAnimatedConfidence (v : number) (s : AppState) : AppState :=
  {| code := code s; language := language s; state := state s; result := result s;
     errorMessage := errorMessage s; history := history s;
     lastAnalyzedAt := lastAnalyzedAt s; animatedConfidence := v;
     analysisDuration := analysisDuration s |}.

Definition setAnalysisDuration (v : option number) (s : AppState) : AppState :=
  {| code := code s; language := language s; state := state s; result := result s;
     errorMessage := errorMessage s; history := history s;
     lastAnalyzedAt := lastAnalyzedAt s; animatedConfidence := animatedConfidence s;
     analysisDuration := v |}.

(** The [useState] initial values. *)
Definition initialState : AppState :=
  {| code := []; language := str "auto"; state := ViewState.empty; result := None;
     errorMessage := None; history := []; lastAnalyzedAt := None;
     animatedConfidence := num 0; analysisDuration := None |}.

(** ** The history *)

(** The [codePreview] computed by [addToHistory] from the [code] of its
    closure. *)
Definition preview (code : jsstring) : jsstring :=
  take 80 (trim (collapseWhiteSpace code))
  ++ (if (80 <? length code)%nat then previewMarker else []).

(** The item put in front by [addToHistory], given the history it is added to. *)
Definition newItem (code now : jsstring) (item : Outcome) (prev : list HistoryItem)
  : HistoryItem :=
  {| id := Z.of_nat (length prev) + 1;
     timestamp := now;
     codePreview := if isEmpty (preview code) then str "(empty)" else preview code;
     outcome := item |}.

(** The updater passed to [setHistory]: [[{...}, ...prev].slice(0, 10)]. *)
Definition pushItem (code now : jsstring) (item : Outcome) (prev : list HistoryItem)
  : list HistoryItem :=
  take 10 (newItem code now item prev :: prev).

(** [addToHistory(item)]; [code] is the closure's, [now] is
    [new Date().toLocaleTimeString()]. *)
Definition addToHistory (code now : jsstring) (item : Outcome) (s : AppState) : AppState :=
  setHistory (pushItem code now item) s.

(** ** Requests and their answers *)

(** The body of the POST: [JSON.stringify({ code, language })]. The same two
    values stay in the closure of the continuation that waits for the answer. *)
Record Request := {
  requestCode : jsstring;
  requestLanguage : jsstring
}.

(** What [await res.json()] gives: the parsed body, or a rejection (the body
    is not JSON, or the connection broke while reading it). *)
Inductive Body :=
  | BodyRejected (e : thrown)
  | BodyJson (v : json).

(** What [await fetch(...)] gives: a rejection when no response arrived, or a
    response with its status. *)
Inductive FetchOutcome :=
  | Rejected (e : thrown)
  | Response (status : N) (body : Body).

(** [res.ok] *)
Definition ok (status : N) : bool := ((200 <=? status) && (status <=? 299))%N.

(** What the continuation reads from the clock when it runs:
    [toLocaleTimeString()], [toLocaleString()] and the rounded number of
    seconds since [startTime]. *)
Record Clock := {
  localeTimeString : jsstring;
  localeString : jsstring;
  elapsedSeconds : number
}.

(** The component and what is pending around it: the requests not answered
    yet, oldest first, and the values that armed [setTimeout] calls will
    pass to [setAnimatedConfidence]. *)
Record World := {
  ui : AppState;
  inFlight : list Request;
  timers : list number
}.

Definition initialWorld : World :=
  {| ui := initialState; inFlight := []; timers := [] |}.

Definition onUi (f : AppState -> AppState) (w : World) : World :=
  {| ui := f (ui w); inFlight := inFlight w; timers := timers w |}.

(** ** The handlers *)

Section Handlers.
Context `{rt : Runtime}.

(** [handleAnalyze] up to [await fetch(...)]. *)
Definition handleAnalyze (w : World) : World :=
  if isEmpty (trim (code (ui w))) then w
  else
    let s := setState ViewState.loading (ui w) in
    let s := setErrorMessage None s in
    {| ui := s;
       inFlight := inFlight w ++ [{| requestCode := code (ui w);
                                       requestLanguage := language (ui w) |}];
       timers := timers w |}.

(** The inner [try] of the [!res.ok] branch: [backendMessage] starts as the
    empty string and keeps it when the body cannot be read. *)
Definition backendMessage (body : Body) : json :=
  match body with
  | BodyRejected _ => JString []
  | BodyJson errJson =>
      match Get errJson (str "error") with
      | Throw _ => JString []
      | Normal None => JString []
      | Normal (Some v) => if truthy (Some v) then v else JString []
      end
  end.

(** The [message] of [new Error(v)]. *)
Definition newErrorMessage (v : json) : jsstring :=
  match v with
  | JString s => s
  | _ => coercedMessage v
  end.

(** The [try] block from [await fetch] to [normalized]: every throw of the
    block happens here, before the first state update. *)
Definition answer (o : FetchOutcome) : completion ResultData :=
  match o with
  | Rejected e => Throw e
  | Response status body =>
      if ok status then
        dataRaw ← match body with
                  | BodyRejected e => Throw e
                  | BodyJson v => Normal v
                  end;
        normalize dataRaw
      else
        let m := backendMessage body in
        Throw (ErrorObject (newErrorMessage
                 (if truthy (Some m) then m else JString (statusMessage status))))
  end.

(** The rest of the [try] block, after [normalized]. *)
Definition onSuccess (req : Request) (clk : Clock) (normalized : ResultData) (w : World)
  : World :=
  let s := setAnalysisDuration (Some (elapsedSeconds clk)) (ui w) in
  let s := setResult (Some normalized) s in
  let s := setState ViewState.result s in
  let s := setAnimatedConfidence (num 0) s in
  let s := setLastAnalyzedAt (Some (localeString clk)) s in
  let s := addToHistory (requestCode req) (localeTimeString clk)
             {| outcomeLanguage := requestLanguage req;
                outcomeStatus := Status.success;
                outcomeResult := Some normalized;
                outcomeErrorMessage := None |} s in
  {| ui := s; inFlight := inFlight w; timers := timers w ++ [confidence normalized] |}.

(** The [catch] block. *)
Definition onCatch (req : Request) (clk : Clock) (err : thrown) (w : World) : World :=
  let message :=
    match err with
    | ErrorObject m => m
    | NotAnError => unreachableMessage
    end in
  let s := setErrorMessage (Some message) (ui w) in
  let s := setResult None s in
  let s := setState ViewState.error s in
  let s := addToHistory (requestCode req) (localeTimeString clk)
             {| outcomeLanguage := requestLanguage req;
                outcomeStatus := Status.error;
                outcomeResult := None;
                outcomeErrorMessage := Some message |} s in
  {| ui := s; inFlight := inFlight w; timers := timers w |}.

(** [handleAnalyze] from [await fetch(...)] on, for the request [req]. *)
Definition resume (req : Request) (o : FetchOutcome) (clk : Clock) (w : World) : World :=
  match answer o with
  | Normal normalized => onSuccess req clk normalized w
  | Throw err => onCatch req clk err w
  end.

Definition handleReset (s : AppState) : AppState :=
  let s := setCode [] s in
  let s := setResult None s in
  let s := setErrorMessage None s in
  setState ViewState.empty s.

Definition handleClearText (s : AppState) : AppState := setCode [] s.

Inductive SampleLanguage := sampleJavascript | samplePython.

Definition insertSampleCode (lang : SampleLanguage) (s : AppState) : AppState :=
  match lang with
  | sampleJavascript => setLanguage (str "javascript") (setCode SAMPLE_JS_CODE s)
  | samplePython => setLanguage (str "python") (setCode SAMPLE_PY_CODE s)
  end.

(** ** What the rendered page lets happen *)

Definition isLoading (s : AppState) : bool := bool_decide (state s = ViewState.loading).

Definition isCodeValid (s : AppState) : bool :=
  (MIN_CODE_LENGTH <=? length (trim (code s)))%nat.

(** The [option] values of the language [select]. *)
Inductive LanguageOption := auto | javascript | python | java | cpp.

Definition optionValue (o : LanguageOption) : jsstring :=
  match o with
  | auto => str "auto"
  | javascript => str "javascript"
  | python => str "python"
  | java => str "java"
  | cpp => str "cpp"
  end.

Inductive Event :=
  | ChangeCode (value : jsstring)
  | ChangeLanguage (o : LanguageOption)
  | ClickSample (lang : SampleLanguage)
  | ClickClearText
  | ClickReset
  | ClickAnalyze
  | ClickRetry
  | Settle (i : nat) (o : FetchOutcome) (clk : Clock)
  | TimerFires (i : nat).

(** A click on the "Analyze Origin" button:
    [disabled={isLoading || !isCodeValid}]; a disabled button gets no click. *)
Definition clickAnalyze (w : World) : World :=
  if isLoading (ui w) || negb (isCodeValid (ui w)) then w else handleAnalyze w.

(** A click on "Retry", which is rendered in the error panel only:
    [disabled={isLoading || !code.trim()}]. *)
Definition clickRetry (w : World) : World :=
  if bool_decide (state (ui w) = ViewState.error)
  then (if isLoading (ui w) || isEmpty (trim (code (ui w))) then w else handleAnalyze w)
  else w.

(** The [i]-th pending request is answered. *)
Definition settle (i : nat) (o : FetchOutcome) (clk : Clock) (w : World) : World :=
  match inFlight w !! i with
  | Some req =>
      resume req o clk {| ui := ui w; inFlight := delete i (inFlight w); timers := timers w |}
  | None => w
  end.

(** The [i]-th armed timer fires: [setAnimatedConfidence(normalized.confidence)]. *)
Definition timerFires (i : nat) (w : World) : World :=
  match timers w !! i with
  | Some c =>
      {| ui := setAnimatedConfidence c (ui w); inFlight := inFlight w;
         timers := delete i (timers w) |}
  | None => w
  end.

Definition step (w : World) (e : Event) : World :=
  match e with
  | ChangeCode value => onUi (setCode value) w
  | ChangeLanguage o => onUi (setLanguage (optionValue o)) w
  | ClickSample lang => onUi (insertSampleCode lang) w
  | ClickClearText => onUi handleClearText w
  | ClickReset => onUi handleReset w
  | ClickAnalyze => clickAnalyze w
  | ClickRetry => clickRetry w
  | Settle i o clk => settle i o clk w
  | TimerFires i => timerFires i w
  end.

(** The world after a sequence of events, from the first render. *)
Definition run (es : list Event) : World := foldl step initialWorld es.

End Handlers.

(** ** What the claims are measured against *)

(** The confidence the specification asks for: a numeric raw value goes to
    the nearest integer, then into [0, 100] (an overflowed literal is
    beyond every integer); anything else gives the default 55. *)
Definition nearestInteger (q : Q) : Z := Qfloor (q + (1 # 2)).

Definition clampPercent (z : Z) : Z := Z.max 0 (Z.min 100 z).

Definition specConfidence (raw : option json) : Z :=
  match raw with
  | Some (JNumber (Double q)) => clampPercent (nearestInteger q)
  | Some (JNumber (Overflow negative)) => if negative then 0 else 100
  | _ => 55
  end.

(** ** A runtime to evaluate the model with *)

(** Number::toString in radix 10, as ECMAScript defines it: the shortest
    digits that read back as the same double. A rational that is not a double
    is first taken to the nearest one, as [JSON.parse] does with a literal. *)

(** [b ^ e] for any integer exponent. *)
Definition power (b e : Z) : Q :=
  if 0 <=? e then inject_Z (b ^ e) else 1 # Z.to_pos (b ^ (- e)).

(** The integer [e] with [b ^ e <= x < b ^ (e + 1)], from a guess nearby. *)
Fixpoint settleLog (fuel : nat) (b : Z) (x : Q) (e : Z) : Z :=
  match fuel with
  | O => e
  | S fuel' =>
      if negb (Qle_bool (power b e) x) then settleLog fuel' b x (e - 1)
      else if Qle_bool (power b (e + 1)) x then settleLog fuel' b x (e + 1)
      else e
  end.

Definition floorLog2 (x : Q) : Z :=
  settleLog 4 2 x (Z.log2 (Qnum x) - Z.log2 (Z.pos (Qden x))).

Definition floorLog10 (x : Q) : Z :=
  settleLog 8 10 x (floorLog2 x * 30103 / 100000).

(** The nearest integer, a tie going to the even one. *)
Definition roundHalfEven (m : Q) : Z :=
  let f := Qfloor m in
  match Qcompare (m - inject_Z f)%Q (1 # 2) with
  | Lt => f
  | Gt => f + 1
  | Eq => if Z.even f then f else f + 1
  end.

(** The double nearest to a positive rational: 53 significant bits, the
    exponent not below -1022; [None] when it rounds to infinity. *)
Definition nearestDouble (x : Q) : option Q :=
  let e := Z.max (floorLog2 x) (-1022) in
  let ulp := power 2 (e - 52) in
  let d := Qred (inject_Z (roundHalfEven (x / ulp)%Q) * ulp)%Q in
  if Qle_bool (power 2 1024) d then None else Some d.

Definition roundTrips (x : Q) (n k s : Z) : bool :=
  (10 ^ (k - 1) <=? s) &&
  match nearestDouble (inject_Z s * power 10 (n - k))%Q with
  | Some d => Qeq_bool d x
  | None => false
  end.

(** The digits [s], [k] of them, with [s * 10 ^ (n - k)] reading back as the
    double [x], for the least [k] from the given one on. *)
Fixpoint shortestDigits (fuel : nat) (x : Q) (n k : Z) : Z * Z :=
  let t := (x / power 10 (n - k))%Q in
  let lo := Qfloor t in
  let hi := lo + 1 in
  let nearerLo := Qle_bool (t - inject_Z lo)%Q (inject_Z hi - t)%Q in
  match fuel with
  | O => (roundHalfEven t, k)
  | S fuel' =>
      match roundTrips x n k lo, roundTrips x n k hi with
      | true, true => (if nearerLo then lo else hi, k)
      | true, false => (lo, k)
      | false, true => (hi, k)
      | false, false => shortestDigits fuel' x n (k + 1)
      end
  end.

Definition digits (s : Z) : jsstring := decimal (Z.to_N s).

Definition exponentPart (n : Z) : jsstring :=
  str "e" ++ (if 0 <=? n - 1 then str "+" else str "-") ++ digits (Z.abs (n - 1)).

(** Number::toString of a positive double, in radix 10. *)
Definition positiveToString (x : Q) : jsstring :=
  let n0 := floorLog10 x + 1 in
  let (s0, k) := shortestDigits 16 x n0 1 in
  let (s, n) := if s0 =? 10 ^ k then (10 ^ (k - 1), n0 + 1) else (s0, n0) in
  let ds := digits s in
  if (k <=? n) && (n <=? 21) then ds ++ replicate (Z.to_nat (n - k)) 48%N
  else if (0 <? n) && (n <=? 21) then take (Z.to_nat n) ds ++ str "." ++ drop (Z.to_nat n) ds
  else if (-6 <? n) && (n <=? 0) then str "0." ++ replicate (Z.to_nat (- n)) 48%N ++ ds
  else if k =? 1 then ds ++ exponentPart n
  else take 1 ds ++ str "." ++ drop 1 ds ++ exponentPart n.

Definition finiteToString (q : Q) : jsstring :=
  match Qcompare q 0%Q with
  | Eq => str "0"
  | Gt => match nearestDouble q with
          | Some d => if Qeq_bool d 0%Q then str "0" else positiveToString d
          | None => str "Infinity"
          end
  | Lt => match nearestDouble (- q)%Q with
          | Some d => if Qeq_bool d 0%Q then str "0" else str "-" ++ positiveToString d
          | None => str "-Infinity"
          end
  end.

Definition Number_toString (x : number) : jsstring :=
  match x with
  | Finite q => finiteToString q
  | PosInfinity => str "Infinity"
  | NegInfinity => str "-Infinity"
  | NaN => str "NaN"
  end.

(** ToString of a parsed value: an array joins its elements with commas, an
    object is [[object Object]] unless an own [toString] property (which
    cannot be a function) hides the inherited method, and then the conversion
    throws. *)
Fixpoint ToString (v : json) : completion jsstring :=
  match v with
  | JNull => Normal (str "null")
  | JBool b => Normal (if b then str "true" else str "false")
  | JNumber n => Normal (Number_toString (number_of n))
  | JString s => Normal s
  | JArray elements =>
      (fix join (first : bool) (l : list json) : completion jsstring :=
         match l with
         | [] => Normal []
         | e :: l' =>
             s ← match e with JNull => Normal [] | _ => ToString e end;
             rest ← join false l';
             Normal ((if first then [] else str ",") ++ s ++ rest)
         end) true elements
  | JObject properties =>
      match assoc (str "toString") properties with
      | Some _ => Throw (ErrorObject (str "Cannot convert object to primitive value"))
      | None => Normal (str "[object Object]")
      end
  end.

(** The runtime of the examples, worded after V8. *)
Definition sampleRuntime : Runtime :=
  {| nullReadMessage k :=
       str "Cannot read properties of null (reading '" ++ k ++ str "')";
     coercedMessage v :=
       match ToString v with
       | Normal s => s
       | Throw (ErrorObject m) => m
       | Throw NotAnError => []
       end |}.

(** ** Inputs of the scenarios *)

(** The code of scenario A, thirty code units long. *)
Definition validCode : jsstring := str "function sum(a,b){return a+b;}".

Definition shortCode : jsstring := str "abc".

Definition otherCode : jsstring := str "const answer = 6 * 7; // edited".

Definition sampleClock : Clock :=
  {| localeTimeString := str "10:15:30 AM";
     localeString := str "11/2/2026, 10:15:30 AM";
     elapsedSeconds := Finite (12 # 100) |}.

(** What [fetch] rejects with when the server cannot be reached: a TypeError,
    worded by the browser. *)
Definition failedToFetch : thrown := ErrorObject (str "Failed to fetch").

(** [{type: "human", confidence: -10, reasons: []}] *)
Definition scenarioC : json :=
  JObject [(str "type", JString (str "human"));
           (str "confidence", JNumber (Double (-10 # 1)));
           (str "reasons", JArray [])].

(** [{confidence: 123.6}] and [{confidence: -5}] *)
Definition rawAbove : json := JObject [(str "confidence", JNumber (Double (1236 # 10)))].
Definition rawBelow : json := JObject [(str "confidence", JNumber (Double (-5 # 1)))].

(** [{type: "ai", confidence: 82, reasons: [...], model: "Heuristic + OpenAI"}] *)
Definition scenarioA : json :=
  JObject [(str "type", JString (str "ai"));
           (str "confidence", JNumber (Double (82 # 1)));
           (str "reasons", JArray [JString (str "Few comments");
                                   JString (str "Highly regular formatting")]);
           (str "model", JString (str "Heuristic + OpenAI"))].

(** The code is typed and "Analyze Origin" is clicked. *)
Definition submitted : list Event := [ChangeCode validCode; ClickAnalyze].

Definition sampleRun (es : list Event) : World := @run sampleRuntime es.

(** ** Failure messages, as the claims word them *)

(** The [error] property of the body of an answer, when the body is a JSON
    object that has one. *)
Definition errorField (body : Body) : option json :=
  match body with
  | BodyJson errJson => field (str "error") errJson
  | BodyRejected _ => None
  end.

(** An answer that is not a success: no response, or a status outside 2xx. *)
Definition failed (o : FetchOutcome) : bool :=
  match o with
  | Rejected _ => true
  | Response status _ => negb (ok status)
  end.

(** The error contract of the backend: [error], when sent, is a string. *)
Definition errorFieldTyped (o : FetchOutcome) : bool :=
  match o with
  | Rejected _ => true
  | Response _ body =>
      match errorField body with
      | None | Some (JString _) => true
      | Some _ => false
      end
  end.

(** The message of a failure: the server's [error] when it sent a non-empty
    one, else the message made from the status; without a response, the
    message of the error [fetch] rejected with, and the generic text when
    what it rejected with is not an error object. *)
Definition specFailureMessage (o : FetchOutcome) : jsstring :=
  match o with
  | Rejected (ErrorObject m) => m
  | Rejected NotAnError => unreachableMessage
  | Response status body =>
      match errorField body with
      | Some (JString (c :: s)) => c :: s
      | _ => statusMessage status
      end
  end.

(** The message of a failure, every case counted: the server's [error] when
    it is a non-empty string; when it is truthy and not a string, what
    [new Error] makes of it; the message made from the status when [error] is
    absent or falsy or the body cannot be read. Without a response, the message
    of the error [fetch] rejected with, and the generic text when what it
    rejected with is not an error object. *)
Definition failureMessage `{Runtime} (o : FetchOutcome) : jsstring :=
  match o with
  | Rejected (ErrorObject m) => m
  | Rejected NotAnError => unreachableMessage
  | Response status body =>
      match errorField body with
      | Some (JString (c :: s)) => c :: s
      | Some v => if truthy (Some v) then coercedMessage v else statusMessage status
      | None => statusMessage status
      end
  end.

(** ** Sequences of attempts *)

(** What one completed attempt hands to [addToHistory]: the code of its
    closure, the time string, and the item. *)
Record Attempt := {
  attemptCode : jsstring;
  attemptTime : jsstring;
  attemptOutcome : Outcome
}.

Definition record (prev : list HistoryItem) (a : Attempt) : list HistoryItem :=
  pushItem (attemptCode a) (attemptTime a) (attemptOutcome a) prev.

(** The history after the attempts completed one after the other, the first
    one on the empty history. *)
Definition historyAfter (attempts : list Attempt) : list HistoryItem :=
  foldl record [] attempts.



(** The [k]-th attempt of the examples fails with the message [k]. *)
Definition failure (k : nat) : thrown := ErrorObject (decimal (N.of_nat k)).

Definition failedAttempt (k : nat) : Attempt :=
  {| attemptCode := validCode;
     attemptTime := localeTimeString sampleClock;
     attemptOutcome := {| outcomeLanguage := str "auto";
                          outcomeStatus := Status.error;
                          outcomeResult := None;
                          outcomeErrorMessage := Some (decimal (N.of_nat k)) |} |}.

Definition elevenAttempts : list Attempt := failedAttempt <$> seq 1 11.

(** The same on the page: the code is typed once, then each attempt is a
    click on "Analyze Origin" answered by a failure. *)
Definition attemptEvents (k : nat) : list Event :=
  [ClickAnalyze; Settle 0 (Rejected (failure k)) sampleClock].

Definition attemptsOnPage (n : nat) : list Event :=
  ChangeCode validCode :: concat (attemptEvents <$> seq 1 n).

(** No click on "Reset" among the events. *)
Definition noReset (es : list Event) : bool :=
  forallb (λ e, match e with ClickReset => false | _ => true end) es.

(** The invariant of the executions without reset: the view is loading
    exactly while one request is in flight, and there is never a second one. *)
Definition oneRequest (w : World) : Prop :=
  state (ui w) = ViewState.loading ∧ length (inFlight w) = 1%nat
  ∨ state (ui w) ≠ ViewState.loading ∧ inFlight w = [].

(** ** What the page shows *)

(** [a >= b] on Numbers: false as soon as one side is NaN. *)
Definition number_geb (a b : number) : bool :=
  match a, b with
  | NaN, _ | _, NaN => false
  | _, _ => number_leb b a
  end.

(** The object [getConfidenceLabel] returns. *)
Record LabelStyle := {
  label : jsstring;
  color : jsstring
}.

Definition getConfidenceLabel (confidence : number) : LabelStyle :=
  if number_geb confidence (num 80)
  then {| label := str "High"; color := str "text-green-400" |}
  else if number_geb confidence (num 60)
  then {| label := str "Medium"; color := str "text-yellow-400" |}
  else {| label := str "Low"; color := str "text-red-400" |}.

(** The class of the character counter under the text area, which counts the
    buffer as it is, not trimmed. *)
Definition counterClass (s : AppState) : jsstring :=
  if (length (code s) <? MIN_CODE_LENGTH)%nat then str "text-red-400" else str "text-green-400".

(** What the history list shows at the right of an item: the verdict and the
    confidence of a success that has its result, "Error" for an error. *)
Inductive Badge :=
  | VerdictBadge (t : ResultType) (c : number)
  | ErrorBadge
  | NoBadge.

Definition historyBadge (item : HistoryItem) : Badge :=
  match outcomeStatus (outcome item), outcomeResult (outcome item) with
  | Status.success, Some r => VerdictBadge (type r) (confidence r)
  | Status.success, None => NoBadge
  | Status.error, _ => ErrorBadge
  end.

(** The "Analyze Origin" button of the component [CodeInputPanel]:
    [disabled={disabled || !code.trim()}], with the optional prop [disabled]. *)
Definition panelButtonDisabled (disabled : option bool) (code : jsstring) : bool :=
  default false disabled || isEmpty (trim code).

(** ** Predicates of the properties *)

Definition allWhiteSpace (s : jsstring) : bool := forallb isWhiteSpace s.

(** Every white space unit of [s] is a space, and no two of them are
    neighbours; [afterSpace] tells that a white space unit comes just before. *)
Fixpoint singleSpaced (afterSpace : bool) (s : jsstring) : bool :=
  match s with
  | [] => true
  | c :: s' =>
      if isWhiteSpace c
      then (c =? 32)%N && negb afterSpace && singleSpaced true s'
      else singleSpaced false s'
  end.

(** An integer percentage. *)
Definition isPercentage (c : number) : Prop := ∃ z, c = num z ∧ 0 <= z <= 100.

(** The values the language [select] can give. *)
Definition languageValues : list jsstring := optionValue <$> [auto; javascript; python; java; cpp].

(** The view state and the two cells it goes with. *)
Definition viewConsistent (s : AppState) : Prop :=
  match state s with
  | ViewState.empty => result s = None ∧ errorMessage s = None
  | ViewState.loading => errorMessage s = None
  | ViewState.result => is_Some (result s)
  | ViewState.error => result s = None ∧ is_Some (errorMessage s)
  end.

(** A history item whose status tells which of its two optional fields is
    there, and whose result, if any, has an integer percentage. *)
Definition itemConsistent (item : HistoryItem) : Prop :=
  match outcomeStatus (outcome item) with
  | Status.success =>
      (∃ r, outcomeResult (outcome item) = Some r ∧ isPercentage (confidence r))
      ∧ outcomeErrorMessage (outcome item) = None
  | Status.error =>
      outcomeResult (outcome item) = None ∧ is_Some (outcomeErrorMessage (outcome item))
  end.

(** The number of clicks on "Reset". *)
Definition isReset (e : Event) : bool :=
  match e with ClickReset => true | _ => false end.

Definition resets (es : list Event) : nat := length (List.filter isReset es).


(** The label of a raw confidence, by the thresholds on the raw value: one
    half below 80 and below 60, since rounding comes first. *)
Definition expectedLabel (raw : option json) : jsstring :=
  match raw with
  | Some (JNumber (Double q)) =>
      if Qle_bool (159 # 2) q then str "High"
      else if Qle_bool (119 # 2) q then str "Medium"
      else str "Low"
  | Some (JNumber (Overflow negative)) => if negative then str "Low" else str "High"
  | _ => str "Low"
  end.

(** The string of a verdict in the backend's answer. *)
Definition typeName (t : ResultType) : jsstring :=
  match t with
  | ai => str "ai"
  | human => str "human"
  end.

(** The confidences kept anywhere on the page are integer percentages, and
    the items of the history are consistent. *)
Definition percentagesOnly (w : World) : Prop :=
  (∀ r, result (ui w) = Some r → isPercentage (confidence r))
  ∧ isPercentage (animatedConfidence (ui w))
  ∧ Forall isPercentage (timers w)
  ∧ Forall itemConsistent (history (ui w)).

(** The language in the buffer, in every request and in every item of the
    history is a value of the [select]; no request carries blank code. *)
Definition requestsSound (w : World) : Prop :=
  language (ui w) ∈ languageValues
  ∧ Forall (λ req, requestLanguage req ∈ languageValues ∧ trim (requestCode req) ≠ [])
      (inFlight w)
  ∧ Forall (λ item, outcomeLanguage (outcome item) ∈ languageValues) (history (ui w)).

(** The history is capped and its ids stay between 1 and 11. *)
Definition idsInRange (w : World) : Prop :=
  (length (history (ui w)) ≤ 10)%nat
  ∧ Forall (λ item, 1 <= id item <= 11) (history (ui w)).

(** With [n] resets so far: at most [n] requests in flight, and one more
    while the view is loading. *)
Definition boundedByResets (n : nat) (w : World) : Prop :=
  state (ui w) = ViewState.loading ∧ (length (inFlight w) ≤ n + 1)%nat
  ∨ state (ui w) ≠ ViewState.loading ∧ (length (inFlight w) ≤ n)%nat.

(** * Properties *)

(** ** Numbers *)

Lemma Qle_bool_inject_Z (a b : Z) : Qle_bool (inject_Z a) (inject_Z b) = (a <=? b).
Proof. unfold Qle_bool; simpl. by rewrite !Z.mul_1_r. Qed.

Lemma number_leb_num (a b : Z) : number_leb (num a) (num b) = (a <=? b).
Proof. apply Qle_bool_inject_Z. Qed.

Lemma Math_min_num (a b : Z) : Math_min (num a) (num b) = num (Z.min a b).
Proof.
  unfold Math_min, num at 1 2. fold (num a) (num b). rewrite number_leb_num.
  destruct (Z.leb_spec a b); f_equal; lia.
Qed.

Lemma Math_max_num (a b : Z) : Math_max (num a) (num b) = num (Z.max a b).
Proof.
  unfold Math_max, num at 1 2. fold (num a) (num b). rewrite number_leb_num.
  destruct (Z.leb_spec a b); f_equal; lia.
Qed.

Lemma Math_round_Finite (q : Q) : Math_round (Finite q) = num (nearestInteger q).
Proof. reflexivity. Qed.

(** [Math.round] is at most one half away from its argument. *)
Lemma nearestInteger_close (q : Q) :
  (inject_Z (nearestInteger q) - (1 # 2) <= q)%Q ∧ (q < inject_Z (nearestInteger q) + (1 # 2))%Q.
Proof.
  unfold nearestInteger.
  pose proof (Qfloor_le (q + (1 # 2))) as Hlo.
  pose proof (Qlt_floor (q + (1 # 2))) as Hhi.
  rewrite inject_Z_plus in Hhi. change (inject_Z 1) with 1%Q in Hhi.
  set (r := inject_Z (Qfloor (q + (1 # 2)))) in *.
  split; lra.
Qed.

(** The expression stored in [normalized.confidence] for a numeric raw value. *)
Lemma clamp_round_number (n : parsed_number) :
  Math_max (num 0) (Math_min (num 100) (Math_round (number_of n)))
  = num (specConfidence (Some (JNumber n))).
Proof.
  destruct n as [q | [|]]; simpl specConfidence; simpl number_of.
  - by rewrite Math_round_Finite, Math_min_num, Math_max_num.
  - reflexivity.
  - reflexivity.
Qed.

Lemma specConfidence_range (raw : option json) : 0 <= specConfidence raw <= 100.
Proof.
  destruct raw as [[| |[q|[|]]| | |]|]; simpl; unfold clampPercent; lia.
Qed.

(** ** Normalisation *)

Section NormalizeProperties.
Context `{rt : Runtime}.

Lemma Get_not_null (v : json) (k : jsstring) : v ≠ JNull → Get v k = Normal (field k v).
Proof. by destruct v. Qed.

Lemma normalize_null : normalize JNull = Throw (ErrorObject (nullReadMessage (str "type"))).
Proof. reflexivity. Qed.

(** A body other than [null] always normalises, field by field. *)
Lemma normalize_not_null (dataRaw : json) :
  dataRaw ≠ JNull →
  ∃ r, normalize dataRaw = Normal r
    ∧ type r = match field (str "type") dataRaw with
               | Some (JString s) => if decide (s = str "ai") then ai else human
               | _ => human
               end
    ∧ confidence r = num (specConfidence (field (str "confidence") dataRaw))
    ∧ reasons r = match field (str "reasons") dataRaw with
                  | Some (JArray elements) => elements
                  | _ => [JString noReasons]
                  end
    ∧ model r = match field (str "model") dataRaw with
                | None | Some JNull => JString (str "Heuristic")
                | Some v => v
                end.
Proof.
  intros Hnull. unfold normalize. rewrite !Get_not_null by done. simpl.
  eexists; split; [reflexivity|]. simpl. repeat split.
  destruct (field (str "confidence") dataRaw) as [[| |n| | |]|]; try reflexivity.
  apply clamp_round_number.
Qed.

End NormalizeProperties.

(** ** The continuation of a request *)

Section SettleProperties.
Context `{rt : Runtime}.

Lemma settle_lookup (w : World) (i : nat) (req : Request) (o : FetchOutcome) (clk : Clock) :
  inFlight w !! i = Some req →
  settle i o clk w
  = resume req o clk {| ui := ui w; inFlight := delete i (inFlight w); timers := timers w |}.
Proof. intros Hreq. unfold settle. by rewrite Hreq. Qed.

Lemma settle_missing (w : World) (i : nat) (o : FetchOutcome) (clk : Clock) :
  inFlight w !! i = None → settle i o clk w = w.
Proof. intros Hreq. unfold settle. by rewrite Hreq. Qed.

Lemma answer_ok_json (status : N) (dataRaw : json) :
  ok status = true → answer (Response status (BodyJson dataRaw)) = normalize dataRaw.
Proof. intros Hok. unfold answer. rewrite Hok. reflexivity. Qed.

Lemma answer_ok_rejected (status : N) (e : thrown) :
  ok status = true → answer (Response status (BodyRejected e)) = Throw e.
Proof. intros Hok. unfold answer. rewrite Hok. reflexivity. Qed.

(** A 2xx answer whose body cannot be read, or is [null], stores no result. *)
Lemma settle_ok_unusable (w : World) (i : nat) (req : Request) (status : N) (body : Body)
    (clk : Clock) :
  inFlight w !! i = Some req →
  ok status = true →
  (∀ dataRaw, body = BodyJson dataRaw → dataRaw = JNull) →
  let w' := settle i (Response status body) clk w in
  state (ui w') = ViewState.error ∧ result (ui w') = None.
Proof.
  intros Hreq Hok Hbody. cbv zeta. rewrite (settle_lookup _ _ _ _ _ Hreq). unfold resume.
  destruct body as [e | dataRaw].
  - rewrite answer_ok_rejected by done. by split.
  - rewrite (Hbody dataRaw eq_refl), answer_ok_json, normalize_null by done. by split.
Qed.

(** C2, amended. For every 2xx answer whose body is JSON other than [null],
    a result is stored and its confidence is an integer of [0, 100]: a
    numeric raw value rounded to the nearest integer and clamped, and 55 for
    any other raw value. *)
Theorem stored_confidence_is_clamped_percentage
    (w : World) (i : nat) (req : Request) (status : N) (dataRaw : json) (clk : Clock) :
  inFlight w !! i = Some req →
  ok status = true →
  dataRaw ≠ JNull →
  let w' := settle i (Response status (BodyJson dataRaw)) clk w in
  let z := specConfidence (field (str "confidence") dataRaw) in
  ∃ r, result (ui w') = Some r
     ∧ state (ui w') = ViewState.result
     ∧ confidence r = num z
     ∧ 0 <= z <= 100.
Proof.
  intros Hreq Hok Hnull. cbv zeta. rewrite (settle_lookup _ _ _ _ _ Hreq). unfold resume.
  rewrite answer_ok_json by done.
  destruct (normalize_not_null dataRaw Hnull) as (r & -> & _ & Hconf & _).
  exists r. repeat split; [done | apply specConfidence_range..].
Qed.

End SettleProperties.

(** ** Scenarios of the normalisation *)

Lemma stored_confidence_witness :
  ∃ r, result (ui (@settle sampleRuntime 0 (Response 200 (BodyJson rawAbove)) sampleClock
                     (sampleRun submitted))) = Some r
     ∧ state (ui (@settle sampleRuntime 0 (Response 200 (BodyJson rawAbove)) sampleClock
                     (sampleRun submitted))) = ViewState.result
     ∧ confidence r = num 100
     ∧ 0 <= 100 <= 100.
Proof.
  apply (@stored_confidence_is_clamped_percentage sampleRuntime (sampleRun submitted) 0
           {| requestCode := validCode; requestLanguage := str "auto" |} 200 rawAbove
           sampleClock); [reflexivity | reflexivity | discriminate].
Defined.

Example confidence_above_range :
  confidence <$> @normalize sampleRuntime rawAbove = Normal (num 100).
Proof. reflexivity. Qed.

Example confidence_below_range :
  confidence <$> @normalize sampleRuntime rawBelow = Normal (num 0).
Proof. reflexivity. Qed.

(** C2, as stated, fails: a 2xx answer need not leave a result. With the body
    [null] the read of [dataRaw.type] throws, the attempt ends in the error
    state, and no confidence is stored at all. *)
Lemma ok_answer_with_null_body_stores_no_confidence :
  let w' := @settle sampleRuntime 0 (Response 200 (BodyJson JNull)) sampleClock
              (sampleRun submitted) in
  state (ui w') = ViewState.error
  ∧ result (ui w') = None
  ∧ ¬ ∃ r z, result (ui w') = Some r ∧ confidence r = num z ∧ 0 <= z <= 100.
Proof.
  split; [reflexivity|]. split; [reflexivity|].
  intros (r & z & Hr & _). vm_compute in Hr. discriminate Hr.
Qed.

(** C9, as stated, fails: the empty array of scenario C is an array, so
    [Array.isArray] keeps it and the placeholder is not put in its place. *)
Lemma scenarioC_reasons_not_replaced :
  ¬ ∃ r, @normalize sampleRuntime scenarioC = Normal r
       ∧ type r = human
       ∧ confidence r = num 0
       ∧ reasons r = [JString noReasons]
       ∧ model r = JString (str "Heuristic").
Proof.
  intros (r & Hr & _ & _ & Hreasons & _).
  vm_compute in Hr. injection Hr as <-. discriminate Hreasons.
Qed.

(** C9, amended. A 2xx body with type "human", confidence -10, the empty
    array for reasons and no model normalises to verdict human, confidence 0,
    model "Heuristic", and its reasons stay the empty array. *)
Theorem scenarioC_normalized `{rt : Runtime} (dataRaw : json) :
  field (str "type") dataRaw = Some (JString (str "human")) →
  field (str "confidence") dataRaw = Some (JNumber (Double (-10 # 1))) →
  field (str "reasons") dataRaw = Some (JArray []) →
  field (str "model") dataRaw = None →
  normalize dataRaw
  = Normal {| type := human; confidence := num 0; reasons := [];
              model := JString (str "Heuristic") |}.
Proof.
  intros Htype Hconf Hreasons Hmodel.
  assert (dataRaw ≠ JNull) as Hnull by (intros ->; discriminate Htype).
  destruct (normalize_not_null dataRaw Hnull) as ([t c rs m] & -> & Ht & Hc & Hrs & Hm).
  simpl in *. rewrite Htype in Ht. rewrite Hconf in Hc. rewrite Hreasons in Hrs.
  rewrite Hmodel in Hm. subst. reflexivity.
Qed.

Lemma scenarioC_normalized_witness :
  @normalize sampleRuntime scenarioC
  = Normal {| type := human; confidence := num 0; reasons := [];
              model := JString (str "Heuristic") |}.
Proof.
  apply (@scenarioC_normalized sampleRuntime scenarioC); reflexivity.
Defined.

(** ** Reset *)

Section ResetProperties.
Context `{rt : Runtime}.

(** C5. Reset, from any state, shows the empty view, empties the code
    buffer, drops the result and the error message, and leaves the history
    as it was. *)
Theorem reset_empties_view_keeps_history (w : World) :
  let w' := step w ClickReset in
  state (ui w') = ViewState.empty
  ∧ code (ui w') = []
  ∧ result (ui w') = None
  ∧ errorMessage (ui w') = None
  ∧ history (ui w') = history (ui w)
  ∧ length (history (ui w')) = length (history (ui w)).
Proof. by repeat split. Qed.

(** Reset cancels nothing: what is in flight stays in flight. *)
Lemma reset_keeps_requests (w : World) : inFlight (step w ClickReset) = inFlight w.
Proof. reflexivity. Qed.

End ResetProperties.

(** ** Failures *)

Section FailureProperties.
Context `{rt : Runtime}.

Lemma answer_rejected (e : thrown) : answer (Rejected e) = Throw e.
Proof. reflexivity. Qed.

(** What the [!res.ok] branch throws, under the backend's error contract. *)
Lemma answer_not_ok (status : N) (body : Body) :
  ok status = false →
  errorFieldTyped (Response status body) = true →
  answer (Response status body)
  = Throw (ErrorObject (specFailureMessage (Response status body))).
Proof.
  intros Hok Htyped. unfold answer. rewrite Hok. do 2 f_equal.
  simpl in *. destruct body as [e | errJson]; simpl in *; [done|].
  destruct errJson; simpl in *; try done.
  destruct (assoc (str "error") properties) as [[| | |[|c s]| |]|]; simpl in *; done.
Qed.

(** The state left by the [catch] block. *)
Lemma onCatch_view (req : Request) (clk : Clock) (err : thrown) (w : World) :
  let w' := onCatch req clk err w in
  state (ui w') = ViewState.error
  ∧ result (ui w') = None
  ∧ errorMessage (ui w') = Some (specFailureMessage (Rejected err)).
Proof. by destruct err. Qed.

(** What the [!res.ok] branch throws, every kind of [error] field counted. *)
Lemma answer_failed_response (status : N) (body : Body) :
  ok status = false →
  answer (Response status body)
  = Throw (ErrorObject (failureMessage (Response status body))).
Proof.
  intros Hok. unfold answer. rewrite Hok. do 2 f_equal.
  destruct body as [e | errJson]; [done|].
  destruct errJson as [| | | | |properties]; try done.
  unfold backendMessage, failureMessage.
  change (Get (JObject properties) (str "error"))
    with (Normal (assoc (str "error") properties)).
  change (errorField (BodyJson (JObject properties)))
    with (assoc (str "error") properties).
  destruct (assoc (str "error") properties) as [v|]; [|done].
  destruct (truthy (Some v)) eqn:Htruthy.
  - rewrite Htruthy. destruct v as [| | |[|c s]| |]; done.
  - destruct v as [| | |[|c s]| |]; done.
Qed.

(** C3, amended. A request answered by a status outside 2xx, or not answered
    at all, leaves the view in the error state without a result. The message
    is the server's [error] when it is a non-empty string; when [error] is
    truthy and not a string, what [new Error] makes of it; and
    "Server error (status N)" when [error] is absent or falsy or the body
    cannot be read. When [fetch] itself rejects, the message is the one of
    the error it rejected with, and the generic text only when that value is
    not an error object. *)
Theorem failure_sets_error_state_and_message
    (w : World) (i : nat) (req : Request) (o : FetchOutcome) (clk : Clock) :
  inFlight w !! i = Some req →
  failed o = true →
  let w' := settle i o clk w in
  state (ui w') = ViewState.error
  ∧ result (ui w') = None
  ∧ errorMessage (ui w') = Some (failureMessage o).
Proof.
  intros Hreq Hfailed. cbv zeta. rewrite (settle_lookup _ _ _ _ _ Hreq). unfold resume.
  destruct o as [e | status body].
  - rewrite answer_rejected. apply onCatch_view.
  - simpl in Hfailed. apply negb_true_iff in Hfailed.
    rewrite answer_failed_response by done. apply onCatch_view.
Qed.

End FailureProperties.

(** Scenario B: status 500 with [{error: "model unavailable"}]. *)
Lemma failure_message_witness :
  let w' := @settle sampleRuntime 0
              (Response 500 (BodyJson (JObject [(str "error", JString (str "model unavailable"))])))
              sampleClock (sampleRun submitted) in
  state (ui w') = ViewState.error
  ∧ result (ui w') = None
  ∧ errorMessage (ui w') = Some (str "model unavailable").
Proof.
  apply (@failure_sets_error_state_and_message sampleRuntime (sampleRun submitted) 0
           {| requestCode := validCode; requestLanguage := str "auto" |}
           (Response 500 (BodyJson (JObject [(str "error", JString (str "model unavailable"))])))
           sampleClock); reflexivity.
Defined.

(** An [error] that is a number is shown as the number prints. *)
Example coerced_error_message_500 :
  errorMessage (ui (@settle sampleRuntime 0
                      (Response 500 (BodyJson (JObject [(str "error", JNumber (Double 42))])))
                      sampleClock (sampleRun submitted)))
  = Some (str "42").
Proof. reflexivity. Qed.

Example status_message_500 :
  errorMessage (ui (@settle sampleRuntime 0 (Response 500 (BodyRejected failedToFetch))
                      sampleClock (sampleRun submitted)))
  = Some (str "Server error (status 500)").
Proof. reflexivity. Qed.

(** C3, as stated, fails: when the server cannot be reached, [fetch] rejects
    with an error object, and its message is shown, not the generic text. *)
Lemma transport_failure_shows_thrown_message :
  let w' := sampleRun (submitted ++ [Settle 0 (Rejected failedToFetch) sampleClock]) in
  state (ui w') = ViewState.error
  ∧ errorMessage (ui w') = Some (str "Failed to fetch")
  ∧ errorMessage (ui w') ≠ Some unreachableMessage.
Proof. repeat split. vm_compute. discriminate. Qed.

(** ** Answers that arrive late *)

Section LateAnswerProperties.
Context `{rt : Runtime}.

Lemma onSuccess_effect (req : Request) (clk : Clock) (r : ResultData) (w : World) :
  let w' := onSuccess req clk r w in
  state (ui w') = ViewState.result
  ∧ result (ui w') = Some r
  ∧ history (ui w')
    = pushItem (requestCode req) (localeTimeString clk)
        {| outcomeLanguage := requestLanguage req; outcomeStatus := Status.success;
           outcomeResult := Some r; outcomeErrorMessage := None |}
        (history (ui w))
  ∧ code (ui w') = code (ui w)
  ∧ language (ui w') = language (ui w)
  ∧ inFlight w' = inFlight w.
Proof. by repeat split. Qed.

Lemma onCatch_effect (req : Request) (clk : Clock) (err : thrown) (w : World) :
  let w' := onCatch req clk err w in
  let message := specFailureMessage (Rejected err) in
  state (ui w') = ViewState.error
  ∧ result (ui w') = None
  ∧ errorMessage (ui w') = Some message
  ∧ history (ui w')
    = pushItem (requestCode req) (localeTimeString clk)
        {| outcomeLanguage := requestLanguage req; outcomeStatus := Status.error;
           outcomeResult := None; outcomeErrorMessage := Some message |}
        (history (ui w))
  ∧ code (ui w') = code (ui w)
  ∧ language (ui w') = language (ui w)
  ∧ inFlight w' = inFlight w.
Proof. by destruct err. Qed.

(** An answered request leaves the result or the error view, and the list of
    pending requests. *)
Lemma settle_view (w : World) (i : nat) (req : Request) (o : FetchOutcome) (clk : Clock) :
  inFlight w !! i = Some req →
  let w' := settle i o clk w in
  (state (ui w') = ViewState.result ∨ state (ui w') = ViewState.error)
  ∧ inFlight w' = delete i (inFlight w).
Proof.
  intros Hreq. cbv zeta. rewrite (settle_lookup _ _ _ _ _ Hreq). unfold resume.
  destruct (answer o) as [r | err]; [by split; [left|] | by split; [right|]].
Qed.

(** C7, amended. No answer is dropped. Whatever the view shows when a pending
    request is answered (also after a reset, or while a later submission is
    loading), the answer is applied: the view becomes the result or the error
    state, the result is overwritten, and one item made from the code and
    language of that request is put in front of the history. *)
Theorem late_answer_is_applied
    (w : World) (i : nat) (req : Request) (o : FetchOutcome) (clk : Clock) :
  inFlight w !! i = Some req →
  let w' := settle i o clk w in
  (state (ui w') = ViewState.result ∧ is_Some (result (ui w'))
   ∨ state (ui w') = ViewState.error ∧ result (ui w') = None ∧ is_Some (errorMessage (ui w')))
  ∧ (∃ item, outcomeLanguage item = requestLanguage req
           ∧ history (ui w')
             = pushItem (requestCode req) (localeTimeString clk) item (history (ui w))
           ∧ head (history (ui w'))
             = Some (newItem (requestCode req) (localeTimeString clk) item (history (ui w))))
  ∧ inFlight w' = delete i (inFlight w).
Proof.
  intros Hreq. cbv zeta. rewrite (settle_lookup _ _ _ _ _ Hreq). unfold resume.
  destruct (answer o) as [r | err].
  - destruct (onSuccess_effect req clk r
                {| ui := ui w; inFlight := delete i (inFlight w); timers := timers w |})
      as (Hs & Hr & Hh & _ & _ & Hf).
    split; [left; by rewrite Hs, Hr|]. split; [|done].
    eexists. split; [|split; [exact Hh|by rewrite Hh]]. done.
  - destruct (onCatch_effect req clk err
                {| ui := ui w; inFlight := delete i (inFlight w); timers := timers w |})
      as (Hs & Hr & Hm & Hh & _ & _ & Hf).
    split; [right; by rewrite Hs, Hr, Hm|]. split; [|done].
    eexists. split; [|split; [exact Hh|by rewrite Hh]]. done.
Qed.

End LateAnswerProperties.

(** The answer of scenario A arrives after a reset. *)
Lemma late_answer_witness :
  let w := sampleRun (submitted ++ [ClickReset]) in
  let w' := @settle sampleRuntime 0 (Response 200 (BodyJson scenarioA)) sampleClock w in
  (state (ui w') = ViewState.result ∧ is_Some (result (ui w'))
   ∨ state (ui w') = ViewState.error ∧ result (ui w') = None ∧ is_Some (errorMessage (ui w')))
  ∧ (∃ item, outcomeLanguage item = str "auto"
           ∧ history (ui w') = pushItem validCode (str "10:15:30 AM") item []
           ∧ head (history (ui w')) = Some (newItem validCode (str "10:15:30 AM") item []))
  ∧ inFlight w' = [].
Proof.
  apply (@late_answer_is_applied sampleRuntime (sampleRun (submitted ++ [ClickReset])) 0
           {| requestCode := validCode; requestLanguage := str "auto" |}
           (Response 200 (BodyJson scenarioA)) sampleClock).
  reflexivity.
Defined.

(** C7, as stated, fails: a request is sent, the page is reset, and the
    answer that arrives afterwards replaces the empty view by the result and
    adds an item to the history. *)
Lemma late_answer_overwrites_reset :
  let before := sampleRun (submitted ++ [ClickReset]) in
  let after := @step sampleRuntime before
                 (Settle 0 (Response 200 (BodyJson scenarioA)) sampleClock) in
  state (ui before) = ViewState.empty
  ∧ state (ui after) = ViewState.result
  ∧ result (ui before) = None
  ∧ (confidence <$> result (ui after)) = Some (num 82)
  ∧ history (ui before) = []
  ∧ length (history (ui after)) = 1%nat.
Proof. by repeat split. Qed.

(** ** Submitting and retrying *)

Section SubmitProperties.
Context `{rt : Runtime}.

Lemma isEmpty_false (s : jsstring) : isEmpty s = false ↔ s ≠ [].
Proof. by destruct s. Qed.

(** [handleAnalyze] returns at once on a blank buffer, and only then. *)
Lemma handleAnalyze_blank (w : World) : trim (code (ui w)) = [] → handleAnalyze w = w.
Proof. intros Hblank. unfold handleAnalyze. by rewrite Hblank. Qed.

Lemma handleAnalyze_sends (w : World) :
  trim (code (ui w)) ≠ [] →
  let w' := handleAnalyze w in
  state (ui w') = ViewState.loading
  ∧ errorMessage (ui w') = None
  ∧ history (ui w') = history (ui w)
  ∧ inFlight w'
    = inFlight w ++ [{| requestCode := code (ui w); requestLanguage := language (ui w) |}].
Proof.
  intros Hcode. apply isEmpty_false in Hcode. cbv zeta. unfold handleAnalyze.
  rewrite Hcode. by repeat split.
Qed.

(** [handleAnalyze] itself looks neither at the minimum length nor at the
    view state: on a non-blank buffer it sends, also while loading. *)
Lemma handleAnalyze_has_no_loading_guard (w : World) :
  state (ui w) = ViewState.loading →
  trim (code (ui w)) ≠ [] →
  length (inFlight (handleAnalyze w)) = S (length (inFlight w)).
Proof.
  intros _ Hcode. destruct (handleAnalyze_sends w Hcode) as (_ & _ & _ & ->).
  rewrite length_app. simpl. lia.
Qed.

(** X26. The "Analyze Origin" button does keep the minimum: below twenty trimmed
    code units a click changes nothing. *)
Lemma analyze_button_keeps_minimum (w : World) :
  (length (trim (code (ui w))) < MIN_CODE_LENGTH)%nat → step w ClickAnalyze = w.
Proof.
  intros Hshort. simpl. unfold clickAnalyze, isCodeValid.
  destruct (Nat.leb_spec MIN_CODE_LENGTH (length (trim (code (ui w))))); [lia|].
  by rewrite orb_true_r.
Qed.

(** While the view is loading, neither button starts a request. *)
Lemma loading_blocks_submission (w : World) :
  state (ui w) = ViewState.loading → step w ClickAnalyze = w ∧ step w ClickRetry = w.
Proof.
  intros Hloading. simpl. unfold clickAnalyze, clickRetry, isLoading.
  rewrite Hloading. by split.
Qed.

Lemma clickRetry_sends (w : World) :
  state (ui w) = ViewState.error →
  trim (code (ui w)) ≠ [] →
  state (ui (clickRetry w)) = ViewState.loading
  ∧ inFlight (clickRetry w)
    = inFlight w ++ [{| requestCode := code (ui w); requestLanguage := language (ui w) |}].
Proof.
  intros Hstate Hcode. unfold clickRetry, isLoading. rewrite Hstate. simpl.
  rewrite (proj2 (isEmpty_false _) Hcode). simpl.
  destruct (handleAnalyze_sends w Hcode) as (Hs & _ & _ & Hf). by split.
Qed.

(** C8, amended. Retry exists in the error state only, and it submits the
    code and the language that are in the buffer when it is clicked: those of
    the failed attempt when neither was edited since, the edited ones
    otherwise. *)
Theorem retry_sends_current_buffer (w : World) :
  let w' := step w ClickRetry in
  (state (ui w) ≠ ViewState.error → w' = w)
  ∧ (state (ui w) = ViewState.error →
     trim (code (ui w)) ≠ [] →
     state (ui w') = ViewState.loading
     ∧ inFlight w'
       = inFlight w ++ [{| requestCode := code (ui w); requestLanguage := language (ui w) |}]).
Proof.
  cbv zeta. simpl. split.
  - intros Hstate. unfold clickRetry. by rewrite bool_decide_eq_false_2.
  - apply clickRetry_sends.
Qed.

Lemma failed_answer_throws (o : FetchOutcome) : failed o = true → ∃ e, answer o = Throw e.
Proof.
  destruct o as [e | status body]; simpl; [by eexists|].
  intros Hok. apply negb_true_iff in Hok. rewrite Hok. by eexists.
Qed.

(** X25. When the buffer still holds what the failed request carried, retrying
    sends that request again. *)
Lemma retry_repeats_unedited_attempt
    (w : World) (i : nat) (req : Request) (o : FetchOutcome) (clk : Clock) :
  inFlight w !! i = Some req →
  failed o = true →
  code (ui w) = requestCode req →
  language (ui w) = requestLanguage req →
  trim (requestCode req) ≠ [] →
  inFlight (step (settle i o clk w) ClickRetry) = delete i (inFlight w) ++ [req].
Proof.
  intros Hreq Hfailed Hcode Hlang Htrim.
  destruct (failed_answer_throws o Hfailed) as [e He].
  pose proof (settle_lookup w i req o clk Hreq) as Hsettle.
  unfold resume in Hsettle. rewrite He in Hsettle.
  destruct (onCatch_effect req clk e
              {| ui := ui w; inFlight := delete i (inFlight w); timers := timers w |})
    as (Hs & _ & _ & _ & Hc & Hl & Hf).
  rewrite <- Hsettle in Hs, Hc, Hl, Hf. simpl in Hc, Hl, Hf.
  simpl. destruct (clickRetry_sends (settle i o clk w)) as [_ ->];
    [done | by rewrite Hc, Hcode |].
  rewrite Hf, Hc, Hl, Hcode, Hlang. by destruct req.
Qed.

End SubmitProperties.

Lemma retry_witness :
  let w := sampleRun (submitted ++ [Settle 0 (Rejected failedToFetch) sampleClock;
                                    ChangeCode otherCode]) in
  state (ui (@step sampleRuntime w ClickRetry)) = ViewState.loading
  ∧ inFlight (@step sampleRuntime w ClickRetry)
    = [{| requestCode := otherCode; requestLanguage := str "auto" |}].
Proof.
  apply (@retry_sends_current_buffer sampleRuntime
           (sampleRun (submitted ++ [Settle 0 (Rejected failedToFetch) sampleClock;
                                     ChangeCode otherCode]))).
  - reflexivity.
  - vm_compute. discriminate.
Defined.

(** C8, as stated, fails: the attempt with [validCode] fails, the buffer is
    edited, and Retry sends the edited code, not the code of the failed
    attempt. *)
Lemma retry_sends_edited_code :
  let attempt := sampleRun submitted in
  let retried := sampleRun (submitted ++ [Settle 0 (Rejected failedToFetch) sampleClock;
                                          ChangeCode otherCode; ClickRetry]) in
  requestCode <$> inFlight attempt = [validCode]
  ∧ requestCode <$> inFlight retried = [otherCode]
  ∧ requestCode <$> inFlight retried ≠ requestCode <$> inFlight attempt.
Proof. repeat split. vm_compute. discriminate. Qed.

(** C1 fails on the Retry button, which asks for a non-blank buffer only:
    after a failed attempt the buffer is cut down to three code units, and
    Retry sends them. *)
Theorem retry_sends_code_below_minimum :
  let before := sampleRun (submitted ++ [Settle 0 (Rejected failedToFetch) sampleClock;
                                         ChangeCode shortCode]) in
  let after := @step sampleRuntime before ClickRetry in
  length (trim (code (ui before))) = 3%nat
  ∧ state (ui before) = ViewState.error
  ∧ inFlight before = []
  ∧ state (ui after) = ViewState.loading
  ∧ inFlight after = [{| requestCode := shortCode; requestLanguage := str "auto" |}].
Proof. by repeat split. Qed.

(** ** Requests in flight *)

Section InFlightProperties.
Context `{rt : Runtime}.

Lemma oneRequest_initial : oneRequest initialWorld.
Proof. right. by split. Qed.

Lemma oneRequest_handleAnalyze (w : World) :
  state (ui w) ≠ ViewState.loading → inFlight w = [] → oneRequest (handleAnalyze w).
Proof.
  intros Hstate Hnone. destruct (decide (trim (code (ui w)) = [])) as [Hblank | Hcode].
  - rewrite handleAnalyze_blank by done. by right.
  - destruct (handleAnalyze_sends w Hcode) as (Hs & _ & _ & Hf).
    left. split; [done|]. by rewrite Hf, Hnone.
Qed.

Lemma oneRequest_settle (w : World) (i : nat) (o : FetchOutcome) (clk : Clock) :
  oneRequest w → oneRequest (settle i o clk w).
Proof.
  intros Hinv. destruct (inFlight w !! i) as [req|] eqn:Hreq.
  - assert (inFlight w = [req] ∧ i = 0%nat) as [Hone ->].
    { destruct Hinv as [[_ Hlen] | [_ Hnone]]; [|by rewrite Hnone in Hreq].
      destruct (inFlight w) as [|r [|]]; simplify_eq/=.
      destruct i; by simplify_eq/=. }
    destruct (settle_view w 0 req o clk Hreq) as (Hview & Hf).
    right. split; [|by rewrite Hf, Hone].
    destruct Hview as [-> | ->]; done.
  - by rewrite settle_missing.
Qed.

Lemma oneRequest_step (w : World) (e : Event) :
  e ≠ ClickReset → oneRequest w → oneRequest (step w e).
Proof.
  intros Hreset Hinv. destruct e; try done; try exact Hinv.
  - destruct lang; exact Hinv.
  - simpl. unfold clickAnalyze, isLoading. case_bool_decide as Hloading; [done|]. simpl.
    destruct (negb _); [done|].
    destruct Hinv as [[? _] | [_ Hnone]]; [done|]. by apply oneRequest_handleAnalyze.
  - simpl. unfold clickRetry, isLoading. case_bool_decide as Herror; [|done].
    rewrite bool_decide_eq_false_2 by (by rewrite Herror). simpl.
    destruct (isEmpty _); [done|].
    destruct Hinv as [[Hl _] | [Hl Hnone]]; [by rewrite Hl in Herror|].
    by apply oneRequest_handleAnalyze.
  - by apply oneRequest_settle.
  - simpl. unfold timerFires. destruct (timers w !! i); exact Hinv.
Qed.

Lemma oneRequest_foldl (es : list Event) (w : World) :
  noReset es = true → oneRequest w → oneRequest (foldl step w es).
Proof.
  revert w. induction es as [|e es IH]; intros w Hes Hinv; [done|].
  simpl in Hes. apply andb_true_iff in Hes as [He Hes].
  simpl. apply IH; [done|]. apply oneRequest_step; [|done]. by intros ->.
Qed.

(** C6, amended. While the view is loading no button starts a request: the
    "Analyze Origin" button is disabled and "Retry" is not on the page, so
    nothing is sent, queued or replaced. As long as "Reset" is not clicked,
    at most one request is in flight. *)
Theorem at_most_one_request_without_reset :
  (∀ w, state (ui w) = ViewState.loading → step w ClickAnalyze = w ∧ step w ClickRetry = w)
  ∧ (∀ es, noReset es = true → (length (inFlight (run es)) ≤ 1)%nat).
Proof.
  split; [apply loading_blocks_submission|].
  intros es Hes. destruct (oneRequest_foldl es initialWorld Hes oneRequest_initial)
    as [[_ Hlen] | [_ Hnone]]; unfold run.
  - by rewrite Hlen.
  - rewrite Hnone. simpl. lia.
Qed.

End InFlightProperties.

Lemma at_most_one_request_witness :
  (@step sampleRuntime (sampleRun submitted) ClickAnalyze = sampleRun submitted
   ∧ @step sampleRuntime (sampleRun submitted) ClickRetry = sampleRun submitted)
  ∧ (length (inFlight (@run sampleRuntime (submitted ++ [ClickAnalyze; ChangeCode otherCode;
                                                          ClickAnalyze]))) ≤ 1)%nat.
Proof.
  split.
  - apply (proj1 (@at_most_one_request_without_reset sampleRuntime)). reflexivity.
  - apply (proj2 (@at_most_one_request_without_reset sampleRuntime)). reflexivity.
Defined.

(** C6, as stated, fails: a request is sent, the page is reset, new code is
    typed and submitted, and two requests are in flight at once. *)
Lemma two_requests_after_reset :
  let w := sampleRun (submitted ++ [ClickReset; ChangeCode otherCode; ClickAnalyze]) in
  requestCode <$> inFlight w = [validCode; otherCode]
  ∧ ¬ (length (inFlight w) ≤ 1)%nat.
Proof. split; [reflexivity|]. vm_compute. lia. Qed.

(** ** The history *)

Lemma pushItem_length (code now : jsstring) (item : Outcome) (prev : list HistoryItem) :
  (length (pushItem code now item prev) ≤ 10)%nat.
Proof. unfold pushItem. rewrite length_take. lia. Qed.

Lemma pushItem_head (code now : jsstring) (item : Outcome) (prev : list HistoryItem) :
  head (pushItem code now item prev) = Some (newItem code now item prev).
Proof. reflexivity. Qed.




Section HistoryProperties.
Context `{rt : Runtime}.

Lemma history_bound_step (w : World) (e : Event) :
  (length (history (ui w)) ≤ 10)%nat → (length (history (ui (step w e))) ≤ 10)%nat.
Proof.
  intros Hbound. destruct e; try exact Hbound.
  - by destruct lang.
  - simpl. unfold clickAnalyze. destruct (_ || _); [done|].
    unfold handleAnalyze. by destruct (isEmpty _).
  - simpl. unfold clickRetry. destruct (bool_decide _); [|done]. destruct (_ || _); [done|].
    unfold handleAnalyze. by destruct (isEmpty _).
  - simpl. unfold settle. destruct (inFlight w !! i) as [req|]; [|done].
    unfold resume. destruct (answer o); apply pushItem_length.
  - simpl. unfold timerFires. by destruct (timers w !! i).
Qed.



End HistoryProperties.



(** C10 fails once the history is full: the id is the length of the capped
    list plus one, so the eleventh and the twelfth attempt both get 11. *)
Theorem ids_repeat_after_cap :
  let h := history (ui (sampleRun (attemptsOnPage 12))) in
  id <$> h = [11; 11; 10; 9; 8; 7; 6; 5; 4; 3]
  ∧ (outcomeErrorMessage ∘ outcome) <$> take 2 h
    = [Some (str "12"); Some (str "11")].
Proof. split; reflexivity. Qed.

(** Every item added to a full history gets the id 11. *)
Lemma id_of_item_added_to_full_history
    (code now : jsstring) (item : Outcome) (prev : list HistoryItem) :
  length prev = 10%nat → id (newItem code now item prev) = 11.
Proof. intros Hlen. simpl. rewrite Hlen. reflexivity. Qed.

(** Two attempts in a row on a full history leave two items with the id 11
    at its front. *)
Lemma ids_collide_on_full_history (prev : list HistoryItem) (a b : Attempt) :
  length prev = 10%nat → id <$> take 2 (record (record prev a) b) = [11; 11].
Proof.
  intros Hlen.
  assert (length (record prev a) = 10%nat) as Hfull.
  { unfold record, pushItem. rewrite length_take, length_cons, Hlen. reflexivity. }
  assert (take 1 (record prev a)
          = [newItem (attemptCode a) (attemptTime a) (attemptOutcome a) prev]) as Hfront.
  { unfold record, pushItem. by rewrite take_take. }
  unfold record at 1, pushItem. rewrite take_take.
  change (take (2 `min` 10) ?l) with (take 2 l). cbn [take]. rewrite Hfront.
  cbn [fmap list_fmap newItem id]. by rewrite Hfull, Hlen.
Qed.

(** The attempts made on the page leave the history that [historyAfter]
    computes from them. *)
Example page_history_of_eleven_attempts :
  history (ui (sampleRun (attemptsOnPage 11))) = historyAfter elevenAttempts.
Proof. reflexivity. Qed.

(** * Further properties of the component *)

(** ** White space *)

Lemma allWhiteSpace_Forall (s : jsstring) :
  allWhiteSpace s = true ↔ Forall (λ c, isWhiteSpace c = true) s.
Proof.
  unfold allWhiteSpace. induction s as [|c s IH]; simpl.
  - split; [constructor | done].
  - rewrite andb_true_iff, IH, Forall_cons. done.
Qed.

Lemma allWhiteSpace_reverse (s : jsstring) : allWhiteSpace (reverse s) = allWhiteSpace s.
Proof.
  apply eq_true_iff_eq. rewrite !allWhiteSpace_Forall. apply Forall_reverse.
Qed.

Lemma allWhiteSpace_trimStart (s : jsstring) : allWhiteSpace (trimStart s) = allWhiteSpace s.
Proof.
  induction s as [|c s IH]; [done|]. simpl. destruct (isWhiteSpace c) eqn:Hc; [done|].
  simpl. by rewrite Hc.
Qed.

Lemma trimStart_nil_iff (s : jsstring) : trimStart s = [] ↔ allWhiteSpace s = true.
Proof.
  induction s as [|c s IH]; [done|]. simpl. destruct (isWhiteSpace c); simpl; [done|].
  split; discriminate.
Qed.

Lemma trimStart_length (s : jsstring) : (length (trimStart s) ≤ length s)%nat.
Proof.
  induction s as [|c s IH]; [done|]. simpl. destruct (isWhiteSpace c); simpl; lia.
Qed.

Lemma trimStart_head (s : jsstring) (c : N) :
  head (trimStart s) = Some c → isWhiteSpace c = false.
Proof.
  induction s as [|d s IH]; [done|]. simpl. destruct (isWhiteSpace d) eqn:Hd; [done|].
  simpl. by intros [= <-].
Qed.

Lemma reverse_nil_iff {A : Type} (l : list A) : reverse l = [] ↔ l = [].
Proof.
  split; [|by intros ->]. intros Hrev. apply (f_equal length) in Hrev.
  rewrite length_reverse in Hrev. by destruct l.
Qed.

(** [trim] leaves nothing exactly when the string is white space throughout. *)
Lemma trim_nil_iff (s : jsstring) : trim s = [] ↔ allWhiteSpace s = true.
Proof.
  unfold trim, trimEnd.
  etrans; [apply reverse_nil_iff|]. etrans; [apply trimStart_nil_iff|].
  by rewrite allWhiteSpace_reverse, allWhiteSpace_trimStart.
Qed.

Lemma trim_length (s : jsstring) : (length (trim s) ≤ length s)%nat.
Proof.
  unfold trim, trimEnd. rewrite length_reverse.
  etrans; [apply trimStart_length|]. rewrite length_reverse. apply trimStart_length.
Qed.

Lemma collapseFrom_length (inRun : bool) (s : jsstring) :
  (length (collapseFrom inRun s) ≤ length s)%nat.
Proof.
  revert inRun. induction s as [|c s IH]; intros inRun; [done|]. simpl.
  destruct (isWhiteSpace c), inRun; simpl;
    first [ specialize (IH true); lia | specialize (IH false); lia ].
Qed.

Lemma collapseFrom_allWhiteSpace (inRun : bool) (s : jsstring) :
  allWhiteSpace (collapseFrom inRun s) = allWhiteSpace s.
Proof.
  revert inRun. induction s as [|c s IH]; intros inRun; [done|]. simpl.
  destruct (isWhiteSpace c) eqn:Hc.
  - destruct inRun; simpl; by rewrite IH.
  - simpl. by rewrite Hc.
Qed.

Lemma collapseFrom_singleSpaced (inRun : bool) (s : jsstring) :
  singleSpaced inRun (collapseFrom inRun s) = true.
Proof.
  revert inRun. induction s as [|c s IH]; intros inRun; [done|]. simpl.
  destruct (isWhiteSpace c) eqn:Hc.
  - destruct inRun; [apply IH|]. simpl. apply IH.
  - simpl. rewrite Hc. apply IH.
Qed.

Lemma trimStart_app (l k : jsstring) :
  trimStart (l ++ k) = if allWhiteSpace l then trimStart k else trimStart l ++ k.
Proof.
  induction l as [|c l IH]; [done|]. simpl. destruct (isWhiteSpace c); simpl; [apply IH|done].
Qed.

Lemma trimEnd_allWhiteSpace (s : jsstring) : allWhiteSpace s = true → trimEnd s = [].
Proof.
  intros Hs. unfold trimEnd. apply reverse_nil_iff, trimStart_nil_iff.
  by rewrite allWhiteSpace_reverse.
Qed.

(** [trimEnd], read from the front of the string. *)
Lemma trimEnd_cons (c : N) (s : jsstring) :
  trimEnd (c :: s) = if isWhiteSpace c && allWhiteSpace s then [] else c :: trimEnd s.
Proof.
  unfold trimEnd at 1. rewrite reverse_cons, trimStart_app, allWhiteSpace_reverse.
  destruct (allWhiteSpace s) eqn:Hs.
  - rewrite trimEnd_allWhiteSpace by done. simpl.
    destruct (isWhiteSpace c); simpl; [done|]. by rewrite reverse_singleton.
  - rewrite andb_false_r, reverse_app, reverse_singleton. reflexivity.
Qed.

Lemma singleSpaced_weaken (afterSpace : bool) (s : jsstring) :
  singleSpaced true s = true → singleSpaced afterSpace s = true.
Proof.
  destruct s as [|c s]; [done|]. simpl. destruct (isWhiteSpace c); [|done].
  rewrite andb_false_r. discriminate.
Qed.

Lemma singleSpaced_trimStart (afterSpace : bool) (s : jsstring) :
  singleSpaced afterSpace s = true → singleSpaced true (trimStart s) = true.
Proof.
  revert afterSpace. induction s as [|c s IH]; intros afterSpace; [done|]. simpl.
  destruct (isWhiteSpace c) eqn:Hc.
  - intros Hs. apply andb_true_iff in Hs as [_ Hs]. by apply (IH true).
  - simpl. by rewrite Hc.
Qed.

Lemma singleSpaced_trimEnd (afterSpace : bool) (s : jsstring) :
  singleSpaced afterSpace s = true → singleSpaced afterSpace (trimEnd s) = true.
Proof.
  revert afterSpace. induction s as [|c s IH]; intros afterSpace; [done|].
  rewrite trimEnd_cons. simpl. destruct (isWhiteSpace c) eqn:Hc; simpl.
  - destruct (allWhiteSpace s); [done|]. simpl. rewrite Hc.
    intros Hs. apply andb_true_iff in Hs as [-> Hs]. simpl. by apply IH.
  - rewrite Hc. apply IH.
Qed.

Lemma singleSpaced_take (afterSpace : bool) (n : nat) (s : jsstring) :
  singleSpaced afterSpace s = true → singleSpaced afterSpace (take n s) = true.
Proof.
  revert afterSpace n. induction s as [|c s IH]; intros afterSpace [|n]; try done. simpl.
  destruct (isWhiteSpace c).
  - intros Hs. apply andb_true_iff in Hs as [-> Hs]. simpl. by apply IH.
  - apply IH.
Qed.

(** ** The preview of a history item *)

(** X1. A preview has at most 83 code units, and the [codePreview] stored in
    an item is never empty. Code of at most 80 code units is previewed whole:
    collapsed, trimmed, not cut and without the marker. *)
Theorem preview_is_bounded (code now : jsstring) (item : Outcome) (prev : list HistoryItem) :
  (length (preview code) ≤ 83)%nat
  ∧ codePreview (newItem code now item prev) ≠ []
  ∧ ((length code ≤ 80)%nat → preview code = trim (collapseWhiteSpace code)).
Proof.
  split; [|split].
  - unfold preview. rewrite length_app.
    pose proof (firstn_le_length 80 (trim (collapseWhiteSpace code))) as Hcut.
    destruct (80 <? length code)%nat; cbn [length previewMarker]; lia.
  - simpl. by destruct (preview code).
  - intros Hshort. unfold preview.
    destruct (Nat.ltb_spec 80 (length code)) as [|_]; [lia|].
    rewrite app_nil_r. apply take_ge.
    etrans; [apply trim_length|]. etrans; [apply collapseFrom_length|]. done.
Qed.

Lemma preview_is_bounded_witness :
  preview validCode = trim (collapseWhiteSpace validCode).
Proof.
  apply (proj2 (proj2 (preview_is_bounded validCode [] 
           {| outcomeLanguage := []; outcomeStatus := Status.error;
              outcomeResult := None; outcomeErrorMessage := None |} []))).
  vm_compute. lia.
Defined.

(** X2. The marker follows the length of the raw code, not what was cut: code
    longer than 80 code units whose collapsed, trimmed text fits in 80 gets
    the marker after its whole text. *)
Theorem marker_follows_raw_length (code : jsstring) :
  (80 < length code)%nat →
  (length (trim (collapseWhiteSpace code)) ≤ 80)%nat →
  preview code = trim (collapseWhiteSpace code) ++ previewMarker.
Proof.
  intros Hlong Hfits. unfold preview.
  destruct (Nat.ltb_spec 80 (length code)) as [_|]; [|lia].
  by rewrite take_ge.
Qed.

Lemma marker_follows_raw_length_witness :
  preview (str "x" ++ replicate 100 32%N) = str "x" ++ previewMarker.
Proof.
  apply (marker_follows_raw_length (str "x" ++ replicate 100 32%N)); vm_compute; lia.
Defined.

(** X3. Before the marker, the white space of a preview is single spaces
    between other code units: no tab or line break, no two in a row, none at
    the start. *)
Theorem preview_is_single_spaced (code : jsstring) :
  singleSpaced true (take 80 (trim (collapseWhiteSpace code))) = true.
Proof.
  apply singleSpaced_take. unfold trim. apply singleSpaced_trimEnd.
  apply (singleSpaced_trimStart false). apply collapseFrom_singleSpaced.
Qed.

(** ** The gates of a submission *)

Section GateProperties.
Context `{rt : Runtime}.

(** X4. [handleAnalyze] returns without doing anything exactly when the
    buffer is white space throughout (the empty buffer included); on any
    other buffer it sends a request. *)
Theorem handleAnalyze_returns_iff_white_space (w : World) :
  handleAnalyze w = w ↔ allWhiteSpace (code (ui w)) = true.
Proof.
  rewrite <- trim_nil_iff. split; [|apply handleAnalyze_blank].
  intros Hsame. destruct (decide (trim (code (ui w)) = [])) as [|Hcode]; [done|].
  destruct (handleAnalyze_sends w Hcode) as (_ & _ & _ & Hsent).
  rewrite Hsame in Hsent. apply (f_equal length) in Hsent.
  rewrite length_app in Hsent. simpl in Hsent. lia.
Qed.

Lemma isCodeValid_not_blank (s : AppState) :
  isCodeValid s = true → isEmpty (trim (code s)) = false.
Proof.
  unfold isCodeValid, MIN_CODE_LENGTH. intros Hvalid. apply Nat.leb_le in Hvalid.
  destruct (trim (code s)); [simpl in Hvalid; lia|done].
Qed.

(** X5. When "Analyze Origin" is enabled, the counter under the text area is
    green and the guard of [handleAnalyze] lets the click through. The counter
    counts the untrimmed buffer, so it can be green while the button is
    disabled. *)
Theorem analyze_gate_is_the_narrowest :
  (∀ s, isCodeValid s = true →
        counterClass s = str "text-green-400" ∧ isEmpty (trim (code s)) = false)
  ∧ (∃ s, counterClass s = str "text-green-400" ∧ isCodeValid s = false).
Proof.
  split.
  - intros s Hvalid. unfold isCodeValid in Hvalid. apply Nat.leb_le in Hvalid.
    pose proof (trim_length (code s)) as Hlen. split.
    + unfold counterClass. destruct (Nat.ltb_spec (length (code s)) MIN_CODE_LENGTH); [lia|done].
    + apply isCodeValid_not_blank. unfold isCodeValid. by apply Nat.leb_le.
  - exists (setCode (replicate 20 32%N) initialState). by split.
Qed.

Lemma analyze_gate_witness :
  counterClass (setCode validCode initialState) = str "text-green-400"
  ∧ isEmpty (trim (code (setCode validCode initialState))) = false.
Proof.
  apply (proj1 analyze_gate_is_the_narrowest (setCode validCode initialState)).
  reflexivity.
Defined.

Lemma clickAnalyze_sends (w : World) :
  state (ui w) ≠ ViewState.loading →
  isCodeValid (ui w) = true →
  state (ui (step w ClickAnalyze)) = ViewState.loading
  ∧ inFlight (step w ClickAnalyze)
    = inFlight w ++ [{| requestCode := code (ui w); requestLanguage := language (ui w) |}].
Proof.
  intros Hstate Hvalid. simpl. unfold clickAnalyze, isLoading.
  rewrite bool_decide_eq_false_2, Hvalid by done. simpl.
  unfold handleAnalyze. rewrite (isCodeValid_not_blank _ Hvalid). by split.
Qed.

Lemma sample_is_valid (lang : SampleLanguage) (s : AppState) :
  isCodeValid (insertSampleCode lang s) = true.
Proof. destruct lang; vm_compute; reflexivity. Qed.

(** X6. An enabled click on "Analyze Origin" sends the buffer and the
    selected language as they are, shows the loading view and clears the
    error message; the history and the result of the previous attempt stay. *)
Theorem analyze_sends_buffer (w : World) :
  state (ui w) ≠ ViewState.loading →
  isCodeValid (ui w) = true →
  let w' := step w ClickAnalyze in
  state (ui w') = ViewState.loading
  ∧ errorMessage (ui w') = None
  ∧ result (ui w') = result (ui w)
  ∧ history (ui w') = history (ui w)
  ∧ code (ui w') = code (ui w)
  ∧ inFlight w'
    = inFlight w ++ [{| requestCode := code (ui w); requestLanguage := language (ui w) |}].
Proof.
  intros Hstate Hvalid. cbv zeta. simpl. unfold clickAnalyze, isLoading.
  rewrite bool_decide_eq_false_2, Hvalid by done. simpl.
  unfold handleAnalyze. rewrite (isCodeValid_not_blank _ Hvalid). by repeat split.
Qed.

End GateProperties.

Lemma analyze_sends_buffer_witness :
  let w := sampleRun [ChangeCode validCode] in
  let w' := @step sampleRuntime w ClickAnalyze in
  state (ui w') = ViewState.loading
  ∧ errorMessage (ui w') = None
  ∧ result (ui w') = result (ui w)
  ∧ history (ui w') = history (ui w)
  ∧ code (ui w') = code (ui w)
  ∧ inFlight w' = [{| requestCode := validCode; requestLanguage := str "auto" |}].
Proof.
  apply (@analyze_sends_buffer sampleRuntime (sampleRun [ChangeCode validCode]));
    [vm_compute; discriminate | reflexivity].
Defined.

Section EmptyBufferProperties.
Context `{rt : Runtime}.

(** X7. After "Reset" or "Clear Text" nothing can be submitted: with the
    buffer emptied, a click on "Analyze Origin" or on "Retry" changes nothing,
    whatever the page showed before. *)
Theorem emptied_buffer_blocks_submission (w : World) (e : Event) :
  e = ClickReset ∨ e = ClickClearText →
  let w' := step w e in
  step w' ClickAnalyze = w' ∧ step w' ClickRetry = w'.
Proof.
  intros [-> | ->]; cbv zeta; simpl; unfold clickAnalyze, clickRetry, isCodeValid; simpl.
  - done.
  - rewrite orb_true_r. by destruct (bool_decide _).
Qed.

(** X8. A sample button followed by "Analyze Origin", when no request is
    loading, sends the sample with its own language, whatever was typed or
    selected before. *)
Theorem sample_then_analyze_sends_sample (w : World) (lang : SampleLanguage) :
  state (ui w) ≠ ViewState.loading →
  let w' := step (step w (ClickSample lang)) ClickAnalyze in
  state (ui w') = ViewState.loading
  ∧ inFlight w'
    = inFlight w ++ [match lang with
                     | sampleJavascript =>
                         {| requestCode := SAMPLE_JS_CODE; requestLanguage := str "javascript" |}
                     | samplePython =>
                         {| requestCode := SAMPLE_PY_CODE; requestLanguage := str "python" |}
                     end].
Proof.
  intros Hstate. cbv zeta.
  assert (state (ui (step w (ClickSample lang))) ≠ ViewState.loading) as Hstate'
    by (by destruct lang).
  destruct (clickAnalyze_sends (step w (ClickSample lang)) Hstate'
              (sample_is_valid lang (ui w))) as (Hs & Hf).
  split; [done|]. rewrite Hf. by destruct lang.
Qed.

End EmptyBufferProperties.

Lemma emptied_buffer_witness :
  let w' := @step sampleRuntime (sampleRun (submitted ++ [Settle 0 (Rejected failedToFetch) sampleClock]))
              ClickClearText in
  @step sampleRuntime w' ClickAnalyze = w' ∧ @step sampleRuntime w' ClickRetry = w'.
Proof.
  apply (@emptied_buffer_blocks_submission sampleRuntime
           (sampleRun (submitted ++ [Settle 0 (Rejected failedToFetch) sampleClock]))
           ClickClearText).
  by right.
Defined.

Lemma sample_then_analyze_witness :
  let w' := @step sampleRuntime (@step sampleRuntime (sampleRun [ChangeCode shortCode])
                                   (ClickSample samplePython)) ClickAnalyze in
  state (ui w') = ViewState.loading
  ∧ inFlight w' = [{| requestCode := SAMPLE_PY_CODE; requestLanguage := str "python" |}].
Proof.
  apply (@sample_then_analyze_sends_sample sampleRuntime (sampleRun [ChangeCode shortCode])
           samplePython).
  vm_compute. discriminate.
Defined.

(** X9. In the component [CodeInputPanel] the button is enabled exactly when
    the [disabled] prop is absent or false and the code has a code unit that
    is not white space. *)
Theorem panel_button_enabled_iff (disabled : option bool) (code : jsstring) :
  panelButtonDisabled disabled code = false
  ↔ disabled ≠ Some true ∧ allWhiteSpace code = false.
Proof.
  unfold panelButtonDisabled. rewrite orb_false_iff.
  assert (isEmpty (trim code) = false ↔ allWhiteSpace code = false) as ->.
  { pose proof (trim_nil_iff code) as Htrim.
    destruct (trim code), (allWhiteSpace code); try done.
    - discriminate (proj1 Htrim eq_refl).
    - discriminate (proj2 Htrim eq_refl). }
  destruct disabled as [[|]|]; simpl; intuition congruence.
Qed.

(** ** More on the normalisation *)

Lemma number_geb_num (a b : Z) : number_geb (num a) (num b) = (b <=? a).
Proof. apply Qle_bool_inject_Z. Qed.

Lemma Qfloor_ge (z : Z) (x : Q) : z <= Qfloor x ↔ (inject_Z z <= x)%Q.
Proof.
  split.
  - intros Hz. apply Qle_trans with (inject_Z (Qfloor x)); [|apply Qfloor_le].
    by rewrite <- Zle_Qle.
  - intros Hx. rewrite <- (Qfloor_Z z). by apply Qfloor_resp_le.
Qed.

Lemma nearestInteger_ge (z : Z) (q : Q) :
  z <= nearestInteger q ↔ (inject_Z z - (1 # 2) <= q)%Q.
Proof.
  unfold nearestInteger. rewrite Qfloor_ge. set (a := inject_Z z).
  split; intros H; lra.
Qed.

Lemma nearestInteger_inject_Z (z : Z) : nearestInteger (inject_Z z) = z.
Proof.
  unfold nearestInteger, Qfloor, Qplus, inject_Z. simpl.
  change (Z.pos (1 * 2)) with 2. change (1 * 1) with 1.
  rewrite Z.div_add_l by lia. change (1 `div` 2) with 0. lia.
Qed.

Lemma getConfidenceLabel_num (z : Z) :
  label (getConfidenceLabel (num z))
  = if 80 <=? z then str "High" else if 60 <=? z then str "Medium" else str "Low".
Proof.
  unfold getConfidenceLabel. rewrite !number_geb_num.
  by destruct (80 <=? z), (60 <=? z).
Qed.

Lemma Qle_bool_reflect (x y : Q) : reflect (x <= y)%Q (Qle_bool x y).
Proof. apply iff_reflect. symmetry. apply Qle_bool_iff. Qed.

Section MoreNormalizeProperties.
Context `{rt : Runtime}.

(** X10. The label shown with a result follows the raw confidence of the
    answer: High from 79.5 up, Medium from 59.5 up, Low below that; an answer
    without a numeric confidence is labelled Low. *)
Theorem label_follows_raw_confidence (dataRaw : json) :
  dataRaw ≠ JNull →
  ∃ r, normalize dataRaw = Normal r
     ∧ label (getConfidenceLabel (confidence r))
       = expectedLabel (field (str "confidence") dataRaw).
Proof.
  intros Hnull. destruct (normalize_not_null dataRaw Hnull) as (r & Hr & _ & Hc & _).
  exists r. split; [done|]. rewrite Hc, getConfidenceLabel_num.
  destruct (field (str "confidence") dataRaw) as [[| |[q|[|]]| | |]|]; try reflexivity.
  simpl. unfold clampPercent.
  destruct (Qle_bool_reflect (159 # 2) q) as [Hhigh|Hhigh].
  - assert (80 <= nearestInteger q) as H80 by (apply nearestInteger_ge; unfold inject_Z; lra).
    destruct (Z.leb_spec 80 (Z.max 0 (Z.min 100 (nearestInteger q)))); [done|lia].
  - assert (¬ 80 <= nearestInteger q) as H80 by (rewrite nearestInteger_ge; unfold inject_Z; lra).
    destruct (Z.leb_spec 80 (Z.max 0 (Z.min 100 (nearestInteger q)))); [lia|].
    destruct (Qle_bool_reflect (119 # 2) q) as [Hmid|Hmid].
    + assert (60 <= nearestInteger q) as H60 by (apply nearestInteger_ge; unfold inject_Z; lra).
      destruct (Z.leb_spec 60 (Z.max 0 (Z.min 100 (nearestInteger q)))); [done|lia].
    + assert (¬ 60 <= nearestInteger q) as H60 by (rewrite nearestInteger_ge; unfold inject_Z; lra).
      destruct (Z.leb_spec 60 (Z.max 0 (Z.min 100 (nearestInteger q)))); [lia|done].
Qed.

(** X11. An answer that already has the normal form goes through unchanged:
    the verdict "ai" or "human", an integer confidence of [0, 100], an array
    of reasons and a model that is not [null]. *)
Theorem well_formed_answer_is_kept
    (dataRaw : json) (t : ResultType) (z : Z) (rs : list json) (m : json) :
  field (str "type") dataRaw = Some (JString (typeName t)) →
  field (str "confidence") dataRaw = Some (JNumber (Double (inject_Z z))) →
  0 <= z <= 100 →
  field (str "reasons") dataRaw = Some (JArray rs) →
  field (str "model") dataRaw = Some m →
  m ≠ JNull →
  normalize dataRaw = Normal {| type := t; confidence := num z; reasons := rs; model := m |}.
Proof.
  intros Htype Hconf Hz Hreasons Hmodel Hm.
  assert (dataRaw ≠ JNull) as Hnull by (intros ->; discriminate Htype).
  destruct (normalize_not_null dataRaw Hnull) as ([t' c' rs' m'] & -> & Ht & Hc & Hrs & Hm').
  simpl in *. rewrite Htype in Ht. rewrite Hconf in Hc. rewrite Hreasons in Hrs.
  rewrite Hmodel in Hm'. simpl in Hc. rewrite nearestInteger_inject_Z in Hc.
  f_equal. f_equal.
  - rewrite Ht. by destruct t.
  - rewrite Hc. unfold clampPercent. f_equal. lia.
  - done.
  - rewrite Hm'. by destruct m.
Qed.

(** X12. A body other than [null] that has none of the four fields (a
    number, a string, a boolean, an array, an object with other keys) is not
    refused: it gives the verdict human with confidence 55, the placeholder
    reason and the model "Heuristic". *)
Theorem answer_without_fields_gets_defaults (dataRaw : json) :
  dataRaw ≠ JNull →
  field (str "type") dataRaw = None →
  field (str "confidence") dataRaw = None →
  field (str "reasons") dataRaw = None →
  field (str "model") dataRaw = None →
  normalize dataRaw
  = Normal {| type := human; confidence := num 55; reasons := [JString noReasons];
              model := JString (str "Heuristic") |}.
Proof.
  intros Hnull Htype Hconf Hreasons Hmodel.
  destruct (normalize_not_null dataRaw Hnull) as ([t c rs m] & -> & Ht & Hc & Hrs & Hm).
  simpl in *. rewrite Htype in Ht. rewrite Hconf in Hc. rewrite Hreasons in Hrs.
  rewrite Hmodel in Hm. by subst.
Qed.

End MoreNormalizeProperties.

Lemma label_follows_raw_confidence_witness :
  ∃ r, @normalize sampleRuntime scenarioA = Normal r
     ∧ label (getConfidenceLabel (confidence r)) = str "High".
Proof.
  apply (@label_follows_raw_confidence sampleRuntime scenarioA). discriminate.
Defined.

Lemma well_formed_answer_witness :
  @normalize sampleRuntime scenarioA
  = Normal {| type := ai; confidence := num 82;
              reasons := [JString (str "Few comments");
                          JString (str "Highly regular formatting")];
              model := JString (str "Heuristic + OpenAI") |}.
Proof.
  apply (@well_formed_answer_is_kept sampleRuntime scenarioA ai 82); try reflexivity.
  - lia.
  - discriminate.
Defined.

Lemma answer_without_fields_witness :
  @normalize sampleRuntime (JArray [JString (str "ai")])
  = Normal {| type := human; confidence := num 55; reasons := [JString noReasons];
              model := JString (str "Heuristic") |}.
Proof.
  apply (@answer_without_fields_gets_defaults sampleRuntime (JArray [JString (str "ai")]));
    [discriminate | reflexivity..].
Defined.

(** ** What holds on every page the events can lead to *)

Section PageInvariants.
Context `{rt : Runtime}.

Lemma run_invariant (P : World → Prop) :
  P initialWorld → (∀ w e, P w → P (step w e)) → ∀ es, P (run es).
Proof.
  intros Hinit Hstep es. unfold run. generalize initialWorld Hinit.
  induction es as [|e es IH]; intros w Hw; [done|]. simpl. apply IH. by apply Hstep.
Qed.

Lemma run_snoc (es : list Event) (e : Event) : run (es ++ [e]) = step (run es) e.
Proof. unfold run. apply foldl_snoc. Qed.

Lemma answer_normal_percentage (o : FetchOutcome) (r : ResultData) :
  answer o = Normal r → isPercentage (confidence r).
Proof.
  destruct o as [e | status [e | dataRaw]]; simpl; try done.
  - by destruct (ok status).
  - destruct (ok status); [|done]. simpl.
    assert (dataRaw = JNull ∨ dataRaw ≠ JNull) as [-> | Hnull]
      by (destruct dataRaw; first [by left | by right]); [done|].
    destruct (normalize_not_null dataRaw Hnull) as (r' & -> & _ & Hc & _).
    intros [= <-]. eexists. split; [exact Hc|]. apply specConfidence_range.
Qed.

Lemma viewConsistent_step (w : World) (e : Event) :
  viewConsistent (ui w) → viewConsistent (ui (step w e)).
Proof.
  intros Hview. destruct e as [value | o | lang | | | | | i o clk | i]; simpl step.
  - exact Hview.
  - exact Hview.
  - destruct lang; exact Hview.
  - exact Hview.
  - by split.
  - unfold clickAnalyze. destruct (_ || _); [done|].
    unfold handleAnalyze. by destruct (isEmpty _).
  - unfold clickRetry. destruct (bool_decide _); [|done]. destruct (_ || _); [done|].
    unfold handleAnalyze. by destruct (isEmpty _).
  - unfold settle. destruct (inFlight w !! i) as [req|]; [|done].
    unfold resume. destruct (answer o) as [r | err]; [by eexists|].
    unfold viewConsistent. simpl. split; [done|]. by destruct err.
  - unfold timerFires. destruct (timers w !! i); exact Hview.
Qed.

(** X13. The view state and the cells it goes with never disagree: in the
    empty state there is neither a result nor an error message, while loading
    there is no error message, the result state has its result and the error
    state has its message and no result. *)
Theorem view_is_consistent (es : list Event) : viewConsistent (ui (run es)).
Proof.
  apply (run_invariant (λ w, viewConsistent (ui w))); [by split|].
  apply viewConsistent_step.
Qed.

Lemma isPercentage_zero : isPercentage (num 0).
Proof. exists 0. split; [done|lia]. Qed.

Lemma percentagesOnly_step (w : World) (e : Event) :
  percentagesOnly w → percentagesOnly (step w e).
Proof.
  intros (Hresult & Hanimated & Htimers & Hitems).
  destruct e as [value | o | lang | | | | | i o clk | i]; simpl step.
  - done.
  - done.
  - by destruct lang.
  - done.
  - by split.
  - unfold clickAnalyze. destruct (_ || _); [done|].
    unfold handleAnalyze. by destruct (isEmpty _).
  - unfold clickRetry. destruct (bool_decide _); [|done]. destruct (_ || _); [done|].
    unfold handleAnalyze. by destruct (isEmpty _).
  - unfold settle. destruct (inFlight w !! i) as [req|]; [|done].
    unfold resume. destruct (answer o) as [r | err] eqn:Hanswer.
    + apply answer_normal_percentage in Hanswer.
      split; [by intros r' [= <-]|]. split; [apply isPercentage_zero|].
      split; [apply Forall_app; split; [done|by constructor]|].
      simpl. apply Forall_take. constructor; [|done].
      split; [by eexists|done].
    + split; [done|]. split; [done|]. split; [done|].
      simpl. apply Forall_take. constructor; [|done]. split; [done|by eexists].
  - unfold timerFires. destruct (timers w !! i) as [c|] eqn:Hc; [|done].
    split; [done|]. split; [by eapply Forall_lookup_1|].
    split; [by apply Forall_delete|done].
Qed.

Lemma percentagesOnly_run (es : list Event) : percentagesOnly (run es).
Proof.
  apply run_invariant; [|apply percentagesOnly_step].
  split; [done|]. split; [apply isPercentage_zero|]. by split.
Qed.

(** X14. Every confidence the page keeps is an integer of [0, 100]: the one
    of the result on display, the ones in the history, the value of the
    animated bar and the values the armed timers will give it. *)
Theorem confidences_are_percentages (es : list Event) :
  let w := run es in
  (∀ r, result (ui w) = Some r → isPercentage (confidence r))
  ∧ (∀ item r, item ∈ history (ui w) → outcomeResult (outcome item) = Some r →
               isPercentage (confidence r))
  ∧ isPercentage (animatedConfidence (ui w))
  ∧ (∀ c, c ∈ timers w → isPercentage c).
Proof.
  destruct (percentagesOnly_run es) as (Hresult & Hanimated & Htimers & Hitems).
  cbv zeta. split; [done|]. split; [|split; [done|]].
  - intros item r Hin Hr. rewrite Forall_forall in Hitems.
    specialize (Hitems item Hin). unfold itemConsistent in Hitems.
    destruct (outcomeStatus (outcome item)).
    + destruct Hitems as [(r' & Hr' & Hp) _]. by simplify_eq.
    + destruct Hitems as [Hnone _]. by rewrite Hnone in Hr.
  - by apply Forall_forall.
Qed.

(** X15. In the history the status of an item tells what it carries: a
    success has its result and no error message, an error has its message
    and no result. Every item of the list therefore shows its verdict or
    "Error". *)
Theorem history_items_are_consistent (es : list Event) (item : HistoryItem) :
  item ∈ history (ui (run es)) →
  itemConsistent item ∧ historyBadge item ≠ NoBadge.
Proof.
  intros Hin. destruct (percentagesOnly_run es) as (_ & _ & _ & Hitems).
  rewrite Forall_forall in Hitems. specialize (Hitems item Hin). split; [done|].
  unfold itemConsistent in Hitems. unfold historyBadge.
  destruct (outcomeStatus (outcome item)); [|done].
  by destruct Hitems as [(r & -> & _) _].
Qed.

End PageInvariants.

Section RequestInvariants.
Context `{rt : Runtime}.

Lemma optionValue_known (o : LanguageOption) : optionValue o ∈ languageValues.
Proof.
  unfold languageValues. apply list_elem_of_fmap_2.
  destruct o; repeat first [apply list_elem_of_here | apply list_elem_of_further].
Qed.

Lemma handleAnalyze_requestsSound (w : World) : requestsSound w → requestsSound (handleAnalyze w).
Proof.
  intros (Hlang & Hreqs & Hitems). unfold handleAnalyze.
  destruct (isEmpty (trim (code (ui w)))) eqn:Hblank; [done|].
  split; [done|]. split; [|done]. simpl. apply Forall_app. split; [done|].
  constructor; [|done]. simpl. split; [done|]. by apply isEmpty_false.
Qed.

Lemma requestsSound_step (w : World) (e : Event) : requestsSound w → requestsSound (step w e).
Proof.
  intros Hsound. pose proof Hsound as (Hlang & Hreqs & Hitems).
  destruct e as [value | o | lang | | | | | i o clk | i]; simpl step.
  - exact Hsound.
  - exact (conj (optionValue_known o) (conj Hreqs Hitems)).
  - destruct lang;
      [exact (conj (optionValue_known javascript) (conj Hreqs Hitems))
      |exact (conj (optionValue_known python) (conj Hreqs Hitems))].
  - exact Hsound.
  - exact Hsound.
  - unfold clickAnalyze. destruct (_ || _); [done|]. by apply handleAnalyze_requestsSound.
  - unfold clickRetry. destruct (bool_decide _); [|done]. destruct (_ || _); [done|].
    by apply handleAnalyze_requestsSound.
  - unfold settle. destruct (inFlight w !! i) as [req|] eqn:Hreq; [|done].
    destruct (Forall_lookup_1 _ _ _ _ Hreqs Hreq) as [Hreqlang _].
    unfold resume. destruct (answer o) as [r | err].
    + split; [exact Hlang|]. split; [by apply Forall_delete|].
      simpl. apply Forall_take. by constructor.
    + split; [exact Hlang|]. split; [by apply Forall_delete|].
      simpl. apply Forall_take. by constructor.
  - unfold timerFires. destruct (timers w !! i); exact Hsound.
Qed.

Lemma requestsSound_run (es : list Event) : requestsSound (run es).
Proof.
  apply run_invariant; [|apply requestsSound_step].
  split; [apply (optionValue_known auto)|]. by split.
Qed.

(** X16. The language sent with a request and kept in a history item is
    always one of the five values of the language list: auto, javascript,
    python, java, cpp. *)
Theorem languages_come_from_the_select (es : list Event) :
  let w := run es in
  language (ui w) ∈ languageValues
  ∧ (∀ req, req ∈ inFlight w → requestLanguage req ∈ languageValues)
  ∧ (∀ item, item ∈ history (ui w) → outcomeLanguage (outcome item) ∈ languageValues).
Proof.
  destruct (requestsSound_run es) as (Hlang & Hreqs & Hitems). cbv zeta.
  rewrite Forall_forall in Hreqs. rewrite Forall_forall in Hitems.
  split; [done|]. split; [|done]. intros req Hin. by destruct (Hreqs req Hin).
Qed.

Lemma preview_not_blank (code : jsstring) : trim code ≠ [] → preview code ≠ [].
Proof.
  intros Hcode. unfold preview.
  assert (trim (collapseWhiteSpace code) ≠ []) as Htext.
  { rewrite trim_nil_iff. unfold collapseWhiteSpace.
    rewrite collapseFrom_allWhiteSpace, <- trim_nil_iff. done. }
  destruct (trim (collapseWhiteSpace code)); done.
Qed.

(** X17. No request carries blank code, so the preview of the item its
    answer leaves is computed from the code: the "(empty)" text is never what
    fills it in. *)
Theorem sent_code_is_never_blank
    (es : list Event) (i : nat) (req : Request) (o : FetchOutcome) (clk : Clock) :
  inFlight (run es) !! i = Some req →
  trim (requestCode req) ≠ []
  ∧ codePreview <$> head (history (ui (settle i o clk (run es))))
    = Some (preview (requestCode req)).
Proof.
  intros Hreq. destruct (requestsSound_run es) as (_ & Hreqs & _).
  destruct (Forall_lookup_1 _ _ _ _ Hreqs Hreq) as [_ Hcode]. split; [done|].
  pose proof (preview_not_blank _ Hcode) as Hpreview.
  rewrite (settle_lookup _ _ _ _ _ Hreq). unfold resume.
  destruct (answer o); simpl; by destruct (preview (requestCode req)).
Qed.

Lemma idsInRange_push (code now : jsstring) (item : Outcome) (prev : list HistoryItem) :
  (length prev ≤ 10)%nat →
  Forall (λ item, 1 <= id item <= 11) prev →
  Forall (λ item, 1 <= id item <= 11) (pushItem code now item prev).
Proof.
  intros Hlen Hids. unfold pushItem. apply Forall_take. constructor; [|done]. simpl. lia.
Qed.

Lemma idsInRange_step (w : World) (e : Event) : idsInRange w → idsInRange (step w e).
Proof.
  intros [Hlen Hids]. split; [by apply history_bound_step|].
  destruct e as [value | o | lang | | | | | i o clk | i]; simpl step; try done.
  - by destruct lang.
  - unfold clickAnalyze. destruct (_ || _); [done|].
    unfold handleAnalyze. by destruct (isEmpty _).
  - unfold clickRetry. destruct (bool_decide _); [|done]. destruct (_ || _); [done|].
    unfold handleAnalyze. by destruct (isEmpty _).
  - unfold settle. destruct (inFlight w !! i) as [req|]; [|done].
    unfold resume. destruct (answer o); by apply idsInRange_push.
  - unfold timerFires. by destruct (timers w !! i).
Qed.

End RequestInvariants.

(** ** Ids *)




Section IdProperties.
Context `{rt : Runtime}.

(** X19. On the page every id in the history lies between 1 and 11. *)
Theorem ids_stay_in_range (es : list Event) (item : HistoryItem) :
  item ∈ history (ui (run es)) → 1 <= id item <= 11.
Proof.
  intros Hin.
  assert (idsInRange (run es)) as [_ Hids].
  { apply run_invariant; [|apply idsInRange_step]. split; [simpl; lia|done]. }
  rewrite Forall_forall in Hids. by apply Hids.
Qed.

(** ** What an event leaves alone *)

(** X20. Only an answer writes to the history, and only a click on "Analyze
    Origin" or "Retry" sends a request, one at most: typing, choosing a
    language, the sample buttons, "Clear Text", "Reset" and the timers leave
    the history and the requests in flight as they are. *)
Theorem history_and_requests_frame (w : World) (e : Event) :
  ((∀ i o clk, e ≠ Settle i o clk) → history (ui (step w e)) = history (ui w))
  ∧ ((∀ i o clk, e ≠ Settle i o clk) → e ≠ ClickAnalyze → e ≠ ClickRetry →
     inFlight (step w e) = inFlight w)
  ∧ (length (inFlight (step w e)) ≤ S (length (inFlight w)))%nat.
Proof.
  assert (∀ w' : World,
            history (ui w') = history (ui w) → inFlight w' = inFlight w →
            ((∀ i o clk, e ≠ Settle i o clk) → history (ui w') = history (ui w))
            ∧ ((∀ i o clk, e ≠ Settle i o clk) → e ≠ ClickAnalyze → e ≠ ClickRetry →
               inFlight w' = inFlight w)
            ∧ (length (inFlight w') ≤ S (length (inFlight w)))%nat) as Hsame.
  { intros w' Hh Hf. rewrite Hf. split; [done|]. split; [done|lia]. }
  destruct e as [value | o | lang | | | | | i o clk | i]; simpl step.
  - by apply Hsame.
  - by apply Hsame.
  - by destruct lang; apply Hsame.
  - by apply Hsame.
  - by apply Hsame.
  - unfold clickAnalyze. destruct (_ || _); [by apply Hsame|].
    unfold handleAnalyze. destruct (isEmpty _); [by apply Hsame|].
    split; [done|]. split; [done|]. simpl. rewrite length_app. simpl. lia.
  - unfold clickRetry. destruct (bool_decide _); [|by apply Hsame].
    destruct (_ || _); [by apply Hsame|].
    unfold handleAnalyze. destruct (isEmpty _); [by apply Hsame|].
    split; [done|]. split; [done|]. simpl. rewrite length_app. simpl. lia.
  - split; [intros Hno; by destruct (Hno i o clk)|].
    split; [intros Hno; by destruct (Hno i o clk)|].
    unfold settle. destruct (inFlight w !! i) as [req|] eqn:Hreq; [|lia].
    unfold resume.
    assert (length (delete i (inFlight w)) ≤ length (inFlight w))%nat as Hdel.
    { rewrite length_delete by (by eexists). lia. }
    destruct (answer o); simpl; lia.
  - unfold timerFires. destruct (timers w !! i); by apply Hsame.
Qed.

End IdProperties.

Lemma ids_stay_in_range_witness :
  let item := newItem validCode (str "10:15:30 AM")
                {| outcomeLanguage := str "auto"; outcomeStatus := Status.error;
                   outcomeResult := None; outcomeErrorMessage := Some (str "12") |}
                (historyAfter elevenAttempts) in
  item ∈ history (ui (sampleRun (attemptsOnPage 12))) ∧ 1 <= id item <= 11.
Proof.
  cbv zeta.
  assert (newItem validCode (str "10:15:30 AM")
            {| outcomeLanguage := str "auto"; outcomeStatus := Status.error;
               outcomeResult := None; outcomeErrorMessage := Some (str "12") |}
            (historyAfter elevenAttempts)
          ∈ history (ui (sampleRun (attemptsOnPage 12)))) as Hin
    by (vm_compute; apply list_elem_of_here).
  split; [exact Hin|].
  apply (@ids_stay_in_range sampleRuntime (attemptsOnPage 12)
           (newItem validCode (str "10:15:30 AM")
              {| outcomeLanguage := str "auto"; outcomeStatus := Status.error;
                 outcomeResult := None; outcomeErrorMessage := Some (str "12") |}
              (historyAfter elevenAttempts))).
  vm_compute. apply list_elem_of_here.
Defined.

(** ** Requests in flight, with resets *)

Section ResetBound.
Context `{rt : Runtime}.

Lemma boundedByResets_handleAnalyze (n : nat) (w : World) :
  state (ui w) ≠ ViewState.loading →
  (length (inFlight w) ≤ n)%nat →
  boundedByResets n (handleAnalyze w).
Proof.
  intros Hstate Hlen. unfold handleAnalyze. destruct (isEmpty _); [by right|].
  left. split; [done|]. simpl. rewrite length_app. simpl. lia.
Qed.

Lemma boundedByResets_step (n : nat) (w : World) (e : Event) :
  boundedByResets n w →
  boundedByResets (n + (if isReset e then 1 else 0)) (step w e).
Proof.
  intros Hinv.
  assert (boundedByResets (n + 0) w) as Hinv0 by (by rewrite Nat.add_0_r).
  destruct e as [value | o | lang | | | | | i o clk | i]; simpl isReset; simpl step.
  - exact Hinv0.
  - exact Hinv0.
  - destruct lang; exact Hinv0.
  - exact Hinv0.
  - right. split; [done|]. simpl. destruct Hinv as [[_ Hlen] | [_ Hlen]]; lia.
  - rewrite Nat.add_0_r. unfold clickAnalyze, isLoading.
    case_bool_decide as Hloading; [done|]. simpl. destruct (negb _); [done|].
    destruct Hinv as [[? _] | [_ Hlen]]; [done|]. by apply boundedByResets_handleAnalyze.
  - rewrite Nat.add_0_r. unfold clickRetry, isLoading.
    case_bool_decide as Herror; [|done].
    rewrite bool_decide_eq_false_2 by (by rewrite Herror). simpl.
    destruct (isEmpty _); [done|].
    destruct Hinv as [[Hl _] | [Hl Hlen]]; [by rewrite Hl in Herror|].
    by apply boundedByResets_handleAnalyze.
  - rewrite Nat.add_0_r. destruct (inFlight w !! i) as [req|] eqn:Hreq;
      [|by rewrite settle_missing].
    destruct (settle_view w i req o clk Hreq) as (Hview & Hf).
    right. split; [destruct Hview as [-> | ->]; done|].
    rewrite Hf, length_delete by (by eexists).
    apply lookup_lt_Some in Hreq. destruct Hinv as [[_ Hlen] | [_ Hlen]]; lia.
  - rewrite Nat.add_0_r. unfold timerFires. destruct (timers w !! i); exact Hinv.
Qed.

Lemma resets_snoc (es : list Event) (e : Event) :
  resets (es ++ [e]) = (resets es + (if isReset e then 1 else 0))%nat.
Proof.
  unfold resets. rewrite List.filter_app, length_app. simpl.
  by destruct (isReset e).
Qed.

Lemma boundedByResets_run (es : list Event) : boundedByResets (resets es) (run es).
Proof.
  induction es as [|e es IH] using rev_ind.
  - right. split; [done|]. simpl. lia.
  - rewrite run_snoc, resets_snoc. by apply boundedByResets_step.
Qed.

(** X21. Each click on "Reset" can leave at most one request behind: the
    requests in flight never outnumber the resets by more than one, and when
    the view is not loading they do not outnumber them at all. *)
Theorem requests_bounded_by_resets (es : list Event) :
  (length (inFlight (run es)) ≤ resets es + 1)%nat
  ∧ (state (ui (run es)) ≠ ViewState.loading →
     (length (inFlight (run es)) ≤ resets es)%nat).
Proof.
  destruct (boundedByResets_run es) as [[Hl Hlen] | [Hl Hlen]].
  - split; [done|]. by intros [].
  - split; [lia|done].
Qed.

(** ** The animated bar *)

Lemma delete_last {A : Type} (l : list A) (x : A) : delete (length l) (l ++ [x]) = l.
Proof. induction l as [|y l IH]; [done|]. simpl. by rewrite IH. Qed.

Lemma lookup_last {A : Type} (l : list A) (x : A) : (l ++ [x]) !! length l = Some x.
Proof. induction l as [|y l IH]; [done|]. exact IH. Qed.

(** X22. A result restarts the bar at 0 and arms one timer with its
    confidence; when that timer fires, the bar shows the confidence of the
    result. *)
Theorem bar_restarts_then_shows_confidence
    (w : World) (i : nat) (req : Request) (o : FetchOutcome) (clk : Clock)
    (r : ResultData) :
  inFlight w !! i = Some req →
  answer o = Normal r →
  let w' := settle i o clk w in
  animatedConfidence (ui w') = num 0
  ∧ timers w' = timers w ++ [confidence r]
  ∧ animatedConfidence (ui (step w' (TimerFires (length (timers w))))) = confidence r
  ∧ timers (step w' (TimerFires (length (timers w)))) = timers w.
Proof.
  intros Hreq Hanswer. cbv zeta. rewrite (settle_lookup _ _ _ _ _ Hreq). unfold resume.
  rewrite Hanswer. split; [done|]. split; [done|].
  simpl step. unfold timerFires. cbn [timers onSuccess]. rewrite lookup_last.
  split; [done|]. cbn [timers]. apply delete_last.
Qed.

End ResetBound.

Lemma bar_witness :
  let w' := @settle sampleRuntime 0 (Response 200 (BodyJson scenarioA)) sampleClock
              (sampleRun submitted) in
  animatedConfidence (ui w') = num 0
  ∧ timers w' = [num 82]
  ∧ animatedConfidence (ui (@step sampleRuntime w' (TimerFires 0))) = num 82
  ∧ timers (@step sampleRuntime w' (TimerFires 0)) = [].
Proof.
  apply (@bar_restarts_then_shows_confidence sampleRuntime (sampleRun submitted) 0
           {| requestCode := validCode; requestLanguage := str "auto" |}
           (Response 200 (BodyJson scenarioA)) sampleClock
           {| type := ai; confidence := num 82;
              reasons := [JString (str "Few comments");
                          JString (str "Highly regular formatting")];
              model := JString (str "Heuristic + OpenAI") |});
    reflexivity.
Defined.

(** ** More on failures *)

Section MoreFailureProperties.
Context `{rt : Runtime}.

(** X23. An [error] field that is falsy counts as absent: with [null],
    [false], 0 or the empty string in it, as with no body that can be read,
    a status outside 2xx gives the message made from the status. *)
Theorem falsy_error_field_counts_as_absent
    (w : World) (i : nat) (req : Request) (status : N) (body : Body) (clk : Clock) :
  inFlight w !! i = Some req →
  ok status = false →
  truthy (errorField body) = false →
  let w' := settle i (Response status body) clk w in
  state (ui w') = ViewState.error
  ∧ errorMessage (ui w') = Some (statusMessage status).
Proof.
  intros Hreq Hok Hfalsy. cbv zeta. rewrite (settle_lookup _ _ _ _ _ Hreq).
  unfold resume, answer. rewrite Hok.
  assert (backendMessage body = JString []) as ->; [|done].
  destruct body as [e | errJson]; [done|].
  destruct errJson as [| | | | |properties]; try done.
  unfold backendMessage.
  change (Get (JObject properties) (str "error"))
    with (Normal (assoc (str "error") properties)).
  change (errorField (BodyJson (JObject properties)))
    with (assoc (str "error") properties) in Hfalsy.
  destruct (assoc (str "error") properties) as [v|]; [|done]. by rewrite Hfalsy.
Qed.

(** X24. A 2xx answer is not always a result: when its body cannot be read
    as JSON, or is [null], the attempt ends in the error state with the
    message of the error thrown, and the history gets an error item. *)
Theorem ok_answer_with_unusable_body
    (w : World) (i : nat) (req : Request) (status : N) (body : Body) (err : thrown)
    (clk : Clock) :
  inFlight w !! i = Some req →
  ok status = true →
  body = BodyRejected err
  ∨ body = BodyJson JNull ∧ err = ErrorObject (nullReadMessage (str "type")) →
  let w' := settle i (Response status body) clk w in
  state (ui w') = ViewState.error
  ∧ result (ui w') = None
  ∧ errorMessage (ui w') = Some (specFailureMessage (Rejected err))
  ∧ (outcomeStatus ∘ outcome) <$> head (history (ui w')) = Some Status.error.
Proof.
  intros Hreq Hok Hbody. cbv zeta. rewrite (settle_lookup _ _ _ _ _ Hreq). unfold resume.
  assert (answer (Response status body) = Throw err) as ->.
  { destruct Hbody as [-> | [-> ->]].
    - by apply answer_ok_rejected.
    - rewrite answer_ok_json by done. apply normalize_null. }
  destruct (onCatch_effect req clk err
              {| ui := ui w; inFlight := delete i (inFlight w); timers := timers w |})
    as (Hs & Hr & Hm & Hh & _).
  split; [done|]. split; [done|]. split; [done|]. by rewrite Hh.
Qed.

End MoreFailureProperties.

Lemma falsy_error_field_witness :
  let w' := @settle sampleRuntime 0
              (Response 503 (BodyJson (JObject [(str "error", JNull)])))
              sampleClock (sampleRun submitted) in
  state (ui w') = ViewState.error
  ∧ errorMessage (ui w') = Some (str "Server error (status 503)").
Proof.
  apply (@falsy_error_field_counts_as_absent sampleRuntime (sampleRun submitted) 0
           {| requestCode := validCode; requestLanguage := str "auto" |} 503
           (BodyJson (JObject [(str "error", JNull)])) sampleClock); reflexivity.
Defined.

Lemma ok_answer_with_unusable_body_witness :
  let w' := @settle sampleRuntime 0 (Response 200 (BodyJson JNull)) sampleClock
              (sampleRun submitted) in
  state (ui w') = ViewState.error
  ∧ result (ui w') = None
  ∧ errorMessage (ui w') = Some (str "Cannot read properties of null (reading 'type')")
  ∧ (outcomeStatus ∘ outcome) <$> head (history (ui w')) = Some Status.error.
Proof.
  apply (@ok_answer_with_unusable_body sampleRuntime (sampleRun submitted) 0
           {| requestCode := validCode; requestLanguage := str "auto" |} 200
           (BodyJson JNull) (ErrorObject (str "Cannot read properties of null (reading 'type')"))
           sampleClock); [reflexivity | reflexivity | by right].
Defined.

(** ** Witnesses on the page *)

Lemma history_items_witness :
  let item := newItem validCode (str "10:15:30 AM")
                {| outcomeLanguage := str "auto"; outcomeStatus := Status.error;
                   outcomeResult := None; outcomeErrorMessage := Some (str "1") |} [] in
  itemConsistent item ∧ historyBadge item ≠ NoBadge.
Proof.
  apply (@history_items_are_consistent sampleRuntime (attemptsOnPage 1)).
  vm_compute. apply list_elem_of_here.
Defined.

Lemma sent_code_witness :
  trim validCode ≠ []
  ∧ codePreview <$> head (history (ui (@settle sampleRuntime 0 (Rejected failedToFetch)
                                          sampleClock (@run sampleRuntime submitted))))
    = Some (preview validCode).
Proof.
  apply (@sent_code_is_never_blank sampleRuntime submitted 0
           {| requestCode := validCode; requestLanguage := str "auto" |}
           (Rejected failedToFetch) sampleClock).
  reflexivity.
Defined.

Lemma handleAnalyze_returns_witness :
  @handleAnalyze (sampleRun [ChangeCode (replicate 25 32%N)])
  = sampleRun [ChangeCode (replicate 25 32%N)].
Proof.
  apply (proj2 (handleAnalyze_returns_iff_white_space
                  (sampleRun [ChangeCode (replicate 25 32%N)]))).
  reflexivity.
Defined.

Lemma panel_button_witness : panelButtonDisabled None validCode = false.
Proof.
  apply (proj2 (panel_button_enabled_iff None validCode)). split; [discriminate|reflexivity].
Defined.

Lemma confidences_witness :
  isPercentage (num 82).
Proof.
  apply (proj1 (@confidences_are_percentages sampleRuntime
                  (submitted ++ [Settle 0 (Response 200 (BodyJson scenarioA)) sampleClock]))
           {| type := ai; confidence := num 82;
              reasons := [JString (str "Few comments");
                          JString (str "Highly regular formatting")];
              model := JString (str "Heuristic + OpenAI") |}).
  reflexivity.
Defined.

Lemma languages_witness :
  str "auto" ∈ languageValues.
Proof.
  apply (proj1 (proj2 (@languages_come_from_the_select sampleRuntime submitted))
           {| requestCode := validCode; requestLanguage := str "auto" |}).
  vm_compute. apply list_elem_of_here.
Defined.

Lemma frame_witness :
  history (ui (@step sampleRuntime (sampleRun (attemptsOnPage 2)) ClickReset))
  = history (ui (sampleRun (attemptsOnPage 2))).
Proof.
  apply (proj1 (@history_and_requests_frame sampleRuntime (sampleRun (attemptsOnPage 2))
                  ClickReset)).
  discriminate.
Defined.

Lemma requests_bounded_witness :
  (length (inFlight (@run sampleRuntime submitted)) ≤ resets submitted + 1)%nat.
Proof. apply (proj1 (@requests_bounded_by_resets sampleRuntime submitted)). Defined.

Lemma retry_repeats_witness :
  inFlight (@step sampleRuntime
              (@settle sampleRuntime 0 (Rejected failedToFetch) sampleClock (sampleRun submitted))
              ClickRetry)
  = [{| requestCode := validCode; requestLanguage := str "auto" |}].
Proof.
  apply (@retry_repeats_unedited_attempt sampleRuntime (sampleRun submitted) 0
           {| requestCode := validCode; requestLanguage := str "auto" |}
           (Rejected failedToFetch) sampleClock); try reflexivity.
  vm_compute. discriminate.
Defined.

Lemma analyze_button_witness :
  @step sampleRuntime (sampleRun [ChangeCode shortCode]) ClickAnalyze
  = sampleRun [ChangeCode shortCode].
Proof.
  apply (@analyze_button_keeps_minimum sampleRuntime (sampleRun [ChangeCode shortCode])).
  vm_compute. lia.
Defined.

(** ** What an item records *)

Section RecordedCode.
Context `{rt : Runtime}.

(** X27. A history item shows the code and the language that were analysed,
    not what the buffer holds when the answer arrives: after an enabled click
    on "Analyze Origin", whatever is typed or chosen while the request is in
    flight, its answer leaves an item with the preview of the submitted code
    and the submitted language. *)
Theorem item_records_submitted_code
    (w : World) (value : jsstring) (choice : LanguageOption) (o : FetchOutcome)
    (clk : Clock) :
  state (ui w) ≠ ViewState.loading →
  isCodeValid (ui w) = true →
  let sent := step w ClickAnalyze in
  let edited := step (step sent (ChangeCode value)) (ChangeLanguage choice) in
  let answered := step edited (Settle (length (inFlight w)) o clk) in
  code (ui answered) = value
  ∧ codePreview <$> head (history (ui answered)) = Some (preview (code (ui w)))
  ∧ (outcomeLanguage ∘ outcome) <$> head (history (ui answered)) = Some (language (ui w)).
Proof.
  intros Hstate Hvalid. cbv zeta.
  destruct (clickAnalyze_sends w Hstate Hvalid) as [_ Hsent].
  set (sent := step w ClickAnalyze) in *.
  set (edited := step (step sent (ChangeCode value)) (ChangeLanguage choice)).
  assert (inFlight edited !! length (inFlight w)
          = Some {| requestCode := code (ui w); requestLanguage := language (ui w) |}) as Hreq.
  { change (inFlight edited) with (inFlight sent). rewrite Hsent. apply lookup_last. }
  assert (preview (code (ui w)) ≠ []) as Hpreview.
  { apply preview_not_blank, isEmpty_false. by apply isCodeValid_not_blank. }
  change (step edited (Settle (length (inFlight w)) o clk))
    with (settle (length (inFlight w)) o clk edited).
  rewrite (settle_lookup _ _ _ _ _ Hreq). unfold resume.
  destruct (answer o); (split; [reflexivity|]); simpl;
    by destruct (preview (code (ui w))).
Qed.

End RecordedCode.

Lemma item_records_witness :
  let sent := @step sampleRuntime (sampleRun [ChangeCode validCode]) ClickAnalyze in
  let edited := @step sampleRuntime (@step sampleRuntime sent (ChangeCode otherCode))
                  (ChangeLanguage python) in
  let answered := @step sampleRuntime edited (Settle 0 (Rejected failedToFetch) sampleClock) in
  code (ui answered) = otherCode
  ∧ codePreview <$> head (history (ui answered)) = Some (preview validCode)
  ∧ (outcomeLanguage ∘ outcome) <$> head (history (ui answered)) = Some (str "auto").
Proof.
  apply (@item_records_submitted_code sampleRuntime (sampleRun [ChangeCode validCode])
           otherCode python (Rejected failedToFetch) sampleClock).
  - vm_compute. discriminate.
  - reflexivity.
Defined.

(** ** The runtime of the examples *)

Example sample_coercions :
  @coercedMessage sampleRuntime (JBool true) = str "true"
  ∧ @coercedMessage sampleRuntime (JNumber (Double (1 # 2))) = str "0.5"
  ∧ @coercedMessage sampleRuntime (JArray [JNumber (Double 1); JNull; JString (str "a")])
    = str "1,,a"
  ∧ @coercedMessage sampleRuntime (JObject [(str "code", JNumber (Double 7))])
    = str "[object Object]"
  ∧ @coercedMessage sampleRuntime (JObject [(str "toString", JString (str "x"))])
    = str "Cannot convert object to primitive value".
Proof. by vm_compute. Qed.
